(** * hype-copy: sizing, copy decisions, rebalancing and the position limiter

    A shallow embedding of [src/trade_executor.py], [src/portfolio_executor.py]
    and [src/position_limiter.py].

    Numbers.  The Python code computes on binary64 floats.  Here every
    monetary amount, size and price is an exact rational ([Q]); the
    comparisons and the control flow are those of the source.  The float
    division by zero, which raises [ZeroDivisionError] in Python, is kept
    as a failing operation ([fdiv]).  Timestamps are integers counting
    microseconds, the resolution of [datetime].

    Collaborators.  The exchange client ([Info], [Exchange]) is a snapshot
    record: the mid prices, the account value, the open positions, the
    instrument universe and the reply the exchange gives to an order.  Each
    function returns its result together with the orders it handed to
    [market_open], in order of submission. *)

From Stdlib Require Import QArith Qabs Qround Lqa ZArith String.
From stdpp Require Import gmap strings list fin_maps.

(** ** Python arithmetic on rationals *)

Module Py.

Local Open Scope Q_scope.

Definition ltb (a b : Q) : bool := if Qlt_le_dec a b then true else false.
Definition gtb (a b : Q) : bool := ltb b a.
Definition geb (a b : Q) : bool := negb (ltb a b).
Definition neqb (a b : Q) : bool := negb (Qeq_bool a b).

(** [min(a, b)]: the first argument unless the second is strictly smaller. *)
Definition min (a b : Q) : Q := if ltb b a then b else a.

(** Float division; [None] stands for [ZeroDivisionError]. *)
Definition fdiv (a b : Q) : option Q :=
  if Qeq_bool b 0 then None else Some (a / b).

(** Nearest integer, ties to the even one. *)
Definition round_half_even (q : Q) : Z :=
  let n := Qfloor q in
  let r := q - inject_Z n in
  if ltb r (1 # 2) then n
  else if ltb (1 # 2) r then (n + 1)%Z
  else if Z.even n then n else (n + 1)%Z.

(** [round(x, ndigits)] for a non-negative number of digits. *)
Definition round (x : Q) (ndigits : nat) : Q :=
  let scale := inject_Z (10 ^ Z.of_nat ndigits) in
  inject_Z (round_half_even (x * scale)) / scale.

End Py.

(** ** The exchange as seen by the executors *)

Record AssetPosition := {
  pos_coin : string;
  szi : Q;
  markPx : option Q
}.

Record Order := {
  name : string;
  is_buy : bool;
  sz : Q;
  slippage : Q
}.

(** What [market_open] answers: a fill, an error status, or anything else. *)
Inductive Reply :=
| ReplyFilled (totalSz avgPx : Q) (oid : Z)
| ReplyError (msg : string)
| ReplyOther.

Record Env := {
  all_mids : gmap string Q;
  marginSummary : option Q;
  assetPositions : list AssetPosition;
  universe : list (string * nat);
  market_open : Order → Reply
}.

(** [next((p for p in positions if p["position"]["coin"] == coin), None)] *)
Definition find_position (positions : list AssetPosition) (coin : string)
  : option AssetPosition :=
  List.find (λ p, String.eqb (pos_coin p) coin) positions.

(** ** trade_executor.py *)

Module TradeExecutor.

Local Open Scope Q_scope.

Record Config := {
  sizing_method : string;
  account_ratio : Q;
  max_position_size : Q;
  fixed_size : Q;
  wallet_percentage : Q;
  wallet_fixed_amount : Q
}.

Definition min_order_value : Q := 10.

Definition get_account_balance (env : Env) : Q :=
  match marginSummary env with
  | Some accountValue => accountValue
  | None => 0
  end.

Definition is_wallet_method (m : string) : bool :=
  String.eqb m "wallet_percentage" || String.eqb m "wallet_fixed".

Definition calculate_position_size (cfg : Config) (env : Env)
    (signal_size current_price : Q) : option Q :=
  let account_balance := get_account_balance env in
  (* Apply sizing method *)
  my_size ←
    (if String.eqb (sizing_method cfg) "fixed_ratio" then
       Some (Qabs signal_size * account_ratio cfg)
     else if String.eqb (sizing_method cfg) "fixed_size" then
       Some (fixed_size cfg)
     else if String.eqb (sizing_method cfg) "wallet_percentage" then
       let order_value := account_balance * wallet_percentage cfg in
       Py.fdiv order_value current_price
     else if String.eqb (sizing_method cfg) "wallet_fixed" then
       let order_value :=
         Py.min (wallet_fixed_amount cfg) (account_balance * 0.9) in
       Py.fdiv order_value current_price
     else
       Some (Qabs signal_size * account_ratio cfg));
  (* Apply max position size cap (only for non-wallet methods) *)
  my_size ←
    (if negb (is_wallet_method (sizing_method cfg)) then
       max_size_in_units ← Py.fdiv (max_position_size cfg) current_price;
       Some (if Py.gtb my_size max_size_in_units
             then max_size_in_units else my_size)
     else Some my_size);
  (* Check minimum order value *)
  let order_value := my_size * current_price in
  my_size ←
    (if Py.ltb order_value min_order_value then
       Py.fdiv min_order_value current_price
     else Some my_size);
  (* Final safety check: don't exceed 90% of account balance *)
  let final_order_value := my_size * current_price in
  let max_safe_value := account_balance * 0.9 in
  if Py.gtb final_order_value max_safe_value then
    Py.fdiv max_safe_value current_price
  else Some my_size.

(** What the executor reports back (the dictionaries it returns). *)
Inductive Result :=
| CoinNotFound (coin : string)
| BelowMinimum (order_value : Q)
| InsufficientBalance (need have : Q)
| Filled (filled_size avg_price : Q) (order_id : Z)
         (calculated_size order_value : Q)
| ExchangeError (msg : string)
| UnknownOrderResult
| Raised
| NoPositionToDecrease
| NoPositionToClose
| UnknownActionType (action_type : string).

(** The ["success"] entry of the returned dictionary. *)
Definition success (r : Result) : bool :=
  match r with
  | Filled _ _ _ _ _ => true
  | _ => false
  end.

(** The ["skipped"] entry of the returned dictionary, false when absent. *)
Definition skipped (r : Result) : bool :=
  match r with
  | BelowMinimum _ | NoPositionToClose => true
  | _ => false
  end.

Definition get_asset_precision (env : Env) (coin : string) : nat :=
  match List.find (λ a, String.eqb (fst a) coin) (universe env) with
  | Some asset_ctx => snd asset_ctx
  | None => 6%nat
  end.

(** The size computed before rounding (the [calculated_size] variable). *)
Definition calculated_size (cfg : Config) (env : Env)
    (action_type : string) (size current_price : Q) : option Q :=
  if String.eqb action_type "OPEN" then
    calculate_position_size cfg env size current_price
  else if String.eqb action_type "CLOSE" then
    (* For close, use exact position size without ratio calculation *)
    Some (Qabs size)
  else
    (* For modify, use ratio but don't check minimum order value *)
    Some (Qabs size * account_ratio cfg).

(** Reading the exchange's answer to a submitted order. *)
Definition parse_result (reply : Reply) (rounded_size order_value : Q)
  : Result :=
  match reply with
  | ReplyFilled totalSz avgPx oid =>
      Filled totalSz avgPx oid rounded_size order_value
  | ReplyError msg => ExchangeError msg
  | ReplyOther => UnknownOrderResult
  end.

Definition execute_market_order (cfg : Config) (env : Env)
    (coin : string) (is_buy : bool) (size : Q) (action_type : string)
  : Result * list Order :=
  match all_mids env !! coin with
  | None => (CoinNotFound coin, [])
  | Some current_price =>
    match calculated_size cfg env action_type size current_price with
    | None => (Raised, [])
    | Some calculated =>
      (* Round to proper precision *)
      let precision := get_asset_precision env coin in
      let rounded_size := Py.round calculated precision in
      (* Check minimum order value (skip for CLOSE) *)
      let order_value := rounded_size * current_price in
      if negb (String.eqb action_type "CLOSE")
         && Py.ltb order_value min_order_value
      then (BelowMinimum order_value, [])
      (* Check account balance (skip for CLOSE since we're selling) *)
      else if negb (String.eqb action_type "CLOSE") && is_buy
              && Py.ltb (get_account_balance env) order_value
      then (InsufficientBalance order_value (get_account_balance env), [])
      else
        let order := {| name := coin; is_buy := is_buy;
                        sz := rounded_size; slippage := 0.02 |} in
        (parse_result (market_open env order) rounded_size order_value,
         [order])
    end
  end.

(** [my_pos and float(my_pos["position"]["szi"]) != 0] *)
Definition open_position (env : Env) (coin : string) : option Q :=
  match find_position (assetPositions env) coin with
  | Some my_pos => if Py.neqb (szi my_pos) 0 then Some (szi my_pos) else None
  | None => None
  end.

Definition copy_trade (cfg : Config) (env : Env)
    (signal_coin : string) (signal_size : Q) (action_type : string)
  : Result * list Order :=
  if String.eqb action_type "OPEN" then
    (* New position - buy/sell based on direction *)
    let is_buy := Py.gtb signal_size 0 in
    execute_market_order cfg env signal_coin is_buy (Qabs signal_size)
                         action_type
  else if String.eqb action_type "INCREASE" then
    (* Increase existing position - same direction as current *)
    let is_buy :=
      match open_position env signal_coin with
      | Some my_szi => Py.gtb my_szi 0
      | None => Py.gtb signal_size 0 (* No position, treat as new *)
      end in
    execute_market_order cfg env signal_coin is_buy (Qabs signal_size)
                         action_type
  else if String.eqb action_type "DECREASE" then
    (* Decrease position - opposite direction to current *)
    match open_position env signal_coin with
    | Some my_szi =>
        let is_buy := Py.ltb my_szi 0 in
        execute_market_order cfg env signal_coin is_buy (Qabs signal_size)
                             action_type
    | None => (NoPositionToDecrease, [])
    end
  else if String.eqb action_type "CLOSE" then
    (* Close entire position - opposite direction to current *)
    match open_position env signal_coin with
    | Some my_szi =>
        let is_buy := Py.ltb my_szi 0 in
        execute_market_order cfg env signal_coin is_buy (Qabs signal_size)
                             action_type
    | None => (NoPositionToClose, [])
    end
  else (UnknownActionType action_type, []).

End TradeExecutor.

(** ** position_limiter.py *)

Module PositionLimiter.

Local Open Scope Q_scope.

Record Config := {
  max_trades_per_coin_per_hour : Z;
  max_position_percent : Q;
  min_time_between_trades : Z
}.

(** The three dictionaries of the limiter; times are in microseconds. *)
Record State := {
  trade_history : gmap string (list Z);
  last_trade_time : gmap string Z;
  position_values : gmap string Q
}.

Definition empty : State :=
  {| trade_history := ∅; last_trade_time := ∅; position_values := ∅ |}.

(** [timedelta.total_seconds()] *)
Definition total_seconds (delta : Z) : Q := inject_Z delta / 1000000.

(** [timedelta(hours=1)] *)
Definition one_hour : Z := 3600 * 1000000.

(** [[t for t in trades if t > one_hour_ago]] *)
Definition recent_trades (current_time : Z) (trades : list Z) : list Z :=
  let one_hour_ago := (current_time - one_hour)%Z in
  List.filter (λ t, (one_hour_ago <? t)%Z) trades.

(** Check 3: position size limit; reads [position_values] only. *)
Definition position_check (cfg : Config) (st : State)
    (coin : string) (trade_value account_balance : Q) : bool :=
  let current_position := default 0 (position_values st !! coin) in
  let new_total := current_position + trade_value in
  let max_allowed := account_balance * max_position_percent cfg in
  negb (Py.gtb new_total max_allowed).

(** [should_allow_trade] with the clock reading [current_time]; the state
    returned is the limiter after the call. *)
Definition should_allow_trade (cfg : Config) (st : State) (current_time : Z)
    (coin : string) (trade_value account_balance : Q) : bool * State :=
  (* Check 1: Time since last trade *)
  let too_soon :=
    match last_trade_time st !! coin with
    | Some last =>
        let seconds_since_last := total_seconds (current_time - last) in
        Py.ltb seconds_since_last (inject_Z (min_time_between_trades cfg))
    | None => false
    end in
  if too_soon then (false, st)
  else
    (* Check 2: Trades per hour limit *)
    match trade_history st !! coin with
    | Some trades =>
        (* Remove old trades (> 1 hour) *)
        let recent := recent_trades current_time trades in
        let st' := {| trade_history := <[coin := recent]> (trade_history st);
                      last_trade_time := last_trade_time st;
                      position_values := position_values st |} in
        if (max_trades_per_coin_per_hour cfg <=? Z.of_nat (length recent))%Z
        then (false, st')
        else (position_check cfg st' coin trade_value account_balance, st')
    | None =>
        (position_check cfg st coin trade_value account_balance, st)
    end.

Definition record_trade (st : State) (current_time : Z)
    (coin : string) (trade_value : Q) : State :=
  {| last_trade_time := <[coin := current_time]> (last_trade_time st);
     trade_history :=
       <[coin := default [] (trade_history st !! coin) ++ [current_time]]>
         (trade_history st);
     position_values :=
       <[coin := default 0 (position_values st !! coin) + trade_value]>
         (position_values st) |}.

Definition reset_position (st : State) (coin : string) : State :=
  {| trade_history := trade_history st;
     last_trade_time := last_trade_time st;
     position_values := delete coin (position_values st) |}.

End PositionLimiter.

(** ** portfolio_executor.py *)

Module PortfolioExecutor.

Local Open Scope Q_scope.

Definition min_order_value : Q := 10.

Inductive Result :=
| ChangeTooSmall (change : Q)
| Closed (avg_price : Q)
| Executed (action_type : string)
           (executed_size avg_price position_value : Q) (order_id : Z)
| ExchangeError (msg : string)
| UnknownOrderResult
| Raised.

Definition success (r : Result) : bool :=
  match r with
  | Closed _ | Executed _ _ _ _ _ => true
  | _ => false
  end.

Definition skipped (r : Result) : bool :=
  match r with
  | ChangeTooSmall _ => true
  | _ => false
  end.

(** The ["size"] and ["value"] of the current position, zero when flat. *)
Definition get_current_position (env : Env) (coin : string) : Q * Q :=
  match find_position (assetPositions env) coin with
  | Some pos => (szi pos, Qabs (szi pos) * default 0 (markPx pos))
  | None => (0, 0)
  end.

(** Signed target size; [None] when the division raises. *)
Definition target_size (target_value current_price : Q) (is_long : bool)
  : option Q :=
  target_size ←
    (if Py.gtb target_value 0 then Py.fdiv target_value current_price
     else Some 0);
  Some (if is_long then Qabs target_size else - Qabs target_size).

(** Execute the trade: the order handed to the exchange and the report
    built from its answer. *)
Definition execute (env : Env) (coin : string) (target_value : Q)
    (action_type : string) (is_buy : bool) (action_size : Q)
  : Result * Order :=
  let order := {| name := coin; is_buy := is_buy;
                  sz := action_size; slippage := 0.02 |} in
  (match market_open env order with
   | ReplyFilled totalSz avgPx oid =>
       let new_position_value :=
         if String.eqb action_type "CLOSE" then 0 else target_value in
       Executed action_type totalSz avgPx new_position_value oid
   | ReplyError msg => ExchangeError msg
   | ReplyOther => UnknownOrderResult
   end, order).

Definition rebalance_position (env : Env) (coin : string)
    (target_value current_price : Q) (is_long : bool)
  : Result * list Order :=
  let current_size := fst (get_current_position env coin) in
  match target_size target_value current_price is_long with
  | None => (Raised, [])
  | Some target_size =>
    let size_diff := target_size - current_size in
    if Py.ltb (Qabs target_value) min_order_value && Py.neqb current_size 0
    then
      (* Close position if target is below minimum *)
      let '(r, o) := execute env coin target_value "CLOSE"
                             (Py.ltb current_size 0) (Qabs current_size) in
      (r, [o])
    else if Py.ltb (Qabs (size_diff * current_price)) min_order_value then
      (* Difference too small, skip *)
      (ChangeTooSmall (Qabs (size_diff * current_price)), [])
    else if Qeq_bool current_size 0 then
      (* Open new position *)
      let '(r, o) := execute env coin target_value "OPEN"
                             is_long (Qabs size_diff) in
      (r, [o])
    else if Py.geb (Qabs size_diff) (Qabs current_size * 0.9) then
      (* Close and reopen if changing direction or size change is huge *)
      let close := {| name := coin; is_buy := Py.ltb current_size 0;
                      sz := Qabs current_size; slippage := 0.02 |} in
      (* Then open new position if target > 0 *)
      if Py.geb target_value min_order_value then
        let '(r, o) := execute env coin target_value "OPEN"
                               is_long (Qabs target_size) in
        (r, [close; o])
      else (Closed current_price, [close])
    else
      (* Adjust existing position *)
      let '(r, o) := execute env coin target_value "ADJUST"
                             (Py.gtb size_diff 0) (Qabs size_diff) in
      (r, [o])
  end.

(** The signed position once an order has filled in full. *)
Definition after_fill (position : Q) (o : Order) : Q :=
  if is_buy o then position + sz o else position - sz o.

End PortfolioExecutor.

(** ** The command lines *)

(** [main] of trade_executor.py: the report of a dry run, or the outcome
    of [copy_trade], with the exit code of the process. *)
Module TradeMain.

Import TradeExecutor.
Local Open Scope Q_scope.

Record DryRun := {
  dry_coin : string;
  dry_signal_size : Q;
  dry_calculated_size : Q;
  dry_current_price : Q;
  dry_order_value : Q;
  dry_action : string;
  would_execute : bool
}.

Inductive Output :=
| Usage
| Report (r : DryRun)
| Outcome (r : Result)
| Failure.

(** The [choices] of the action argument. *)
Definition choices : list string := ["OPEN"; "CLOSE"; "INCREASE"; "DECREASE"].

(** Just show what would happen; [None] when a lookup or the sizing
    raises. *)
Definition dry_run (cfg : Config) (env : Env)
    (coin : string) (size : Q) (action : string) : option DryRun :=
  current_price ← all_mids env !! coin;
  calculated ← calculate_position_size cfg env size current_price;
  let precision := get_asset_precision env coin in
  let rounded_size := Py.round calculated precision in
  let order_value := rounded_size * current_price in
  Some {| dry_coin := coin;
          dry_signal_size := size;
          dry_calculated_size := rounded_size;
          dry_current_price := current_price;
          dry_order_value := order_value;
          dry_action := action;
          would_execute := Py.geb order_value min_order_value |}.

Definition main (cfg : Config) (env : Env)
    (coin : string) (size : Q) (action : string) (dry : bool)
  : Output * Z * list Order :=
  if negb (existsb (String.eqb action) choices) then (Usage, 2%Z, [])
  else if dry then
    match dry_run cfg env coin size action with
    | Some r => (Report r, 0%Z, [])
    | None => (Failure, 1%Z, [])
    end
  else
    let '(result, orders) := copy_trade cfg env coin size action in
    (* Exit with error code if trade failed *)
    (Outcome result, if success result then 0%Z else 1%Z, orders).

End TradeMain.

(** [main] of portfolio_executor.py; [None] is the usage error of an
    unknown direction. *)
Module PortfolioMain.

Import PortfolioExecutor.
Local Open Scope Q_scope.

Definition main (env : Env) (coin : string)
    (target_value current_price : Q) (direction : string)
  : option Result * Z * list Order :=
  if negb (existsb (String.eqb direction) ["LONG"; "SHORT"]) then
    (None, 2%Z, [])
  else
    let '(result, orders) :=
      rebalance_position env coin target_value current_price
                         (String.eqb direction "LONG") in
    (Some result,
     if negb (success result) && negb (skipped result) then 1%Z else 0%Z,
     orders).

End PortfolioMain.

(** ** [get_stats] of position_limiter.py *)

Module LimiterStats.

Import PositionLimiter.

(** The dictionary returned by [get_stats].  The blocked coins are listed
    in the order of the map, the source lists them in the order in which
    the coins were first traded. *)
Record Stats := {
  positions : gmap string Q;
  stats_recent_trades : gmap string nat;
  blocked_coins : list string
}.

Definition get_stats (cfg : Config) (st : State) (current_time : Z) : Stats :=
  let counts :=
    (λ trades, length (recent_trades current_time trades))
      <$> trade_history st in
  {| positions := position_values st;
     stats_recent_trades := counts;
     blocked_coins :=
       List.map fst
         (List.filter
            (λ cn, (max_trades_per_coin_per_hour cfg <=? Z.of_nat (snd cn))%Z)
            (map_to_list counts)) |}.

(** Recording a series of trades (time, value) of one coin, in order. *)
Definition record_all (st : State) (coin : string) (trades : list (Z * Q))
  : State :=
  fold_left (λ s tv, record_trade s (fst tv) coin (snd tv)) trades st.

End LimiterStats.

(** ** The simulation of test-sizing-methods.py *)

Module TestSizing.

Local Open Scope Q_scope.

(** The order value and the size the script prints for a percentage of the
    wallet. *)
Definition simulate (current_balance current_price pct : Q) : option (Q * Q) :=
  let order_value := current_balance * pct in
  size ← Py.fdiv order_value current_price;
  (* Apply minimum order value *)
  if Py.ltb order_value 10 then
    let order_value := 10 in
    size ← Py.fdiv order_value current_price;
    Some (order_value, size)
  else Some (order_value, size).

End TestSizing.

(** ** One scenario of analyze-liquidation-risk.py *)

Module LiquidationRisk.

Local Open Scope Q_scope.

Inductive RiskLevel := LOW | MEDIUM | HIGH.

Record Analysis := {
  position_value : Q;
  sol_size : Q;
  max_positions : Q;
  total_exposure : Q;
  remaining_balance : Q;
  max_loss_before_liquidation : Q;
  loss_per_position : Q;
  price_drop_needed : Q;
  risk_level : RiskLevel
}.

(** The body of the loop over the scenarios, for a wallet percentage
    [pct]; [None] when a division raises. *)
Definition analyze (current_balance sol_price pct : Q) : option Analysis :=
  (* Calculate position sizes *)
  let position_value := current_balance * pct in
  sol_size ← Py.fdiv position_value sol_price;
  (* pct <= 0.3, pct <= 0.5 *)
  let max_positions :=
    if Py.geb 0.3 pct then 3
    else if Py.geb 0.5 pct then 2
    else 1 in
  let total_exposure := position_value * max_positions in
  let remaining_balance := current_balance - total_exposure in
  (* 5% remaining = liquidation *)
  let liquidation_threshold := current_balance * 0.05 in
  let max_loss_before_liquidation :=
    current_balance - liquidation_threshold in
  loss_per_position ←
    (if Py.gtb max_positions 0
     then Py.fdiv max_loss_before_liquidation max_positions
     else Some 0);
  (* Calculate price drop needed for liquidation *)
  price_drop_needed ←
    (if Py.gtb position_value 0 then
       ratio ← Py.fdiv loss_per_position position_value;
       let loss_percentage := ratio * 100 in
       Some (Py.min loss_percentage 95)
     else Some 0);
  (* Risk assessment *)
  let risk_level :=
    if Py.gtb price_drop_needed 80 then LOW
    else if Py.gtb price_drop_needed 50 then MEDIUM
    else HIGH in
  Some {| position_value := position_value;
          sol_size := sol_size;
          max_positions := max_positions;
          total_exposure := total_exposure;
          remaining_balance := remaining_balance;
          max_loss_before_liquidation := max_loss_before_liquidation;
          loss_per_position := loss_per_position;
          price_drop_needed := price_drop_needed;
          risk_level := risk_level |}.

End LiquidationRisk.

(** ** Auxiliary definitions *)

Module Sizing.

Import TradeExecutor.
Local Open Scope Q_scope.

(** The last two steps of [calculate_position_size] on their own: the
    minimum order value, then the 90% safety check. *)
Definition floor_then_clamp (account_balance current_price my_size : Q)
  : option Q :=
  my_size ←
    (if Py.ltb (my_size * current_price) min_order_value then
       Py.fdiv min_order_value current_price
     else Some my_size);
  if Py.gtb (my_size * current_price) (account_balance * 0.9) then
    Py.fdiv (account_balance * 0.9) current_price
  else Some my_size.

End Sizing.

(** The same snapshot with another account value. *)
Definition with_balance (env : Env) (balance : option Q) : Env :=
  {| all_mids := all_mids env;
     marginSummary := balance;
     assetPositions := assetPositions env;
     universe := universe env;
     market_open := market_open env |}.

(** Concrete configurations and exchange snapshots. *)
Module Scenario.

Import TradeExecutor.
Local Open Scope Q_scope.

(** The configuration the executor falls back to when the environment
    variables are unset, for a given sizing method. *)
Definition config (method : string) : Config :=
  {| sizing_method := method;
     account_ratio := 0.1;
     max_position_size := 10;
     fixed_size := 1;
     wallet_percentage := 0.1;
     wallet_fixed_amount := 10 |}.

(** One instrument, ETH, quoted at [price] with [decimals] size decimals;
    every order fills in full at the mid price. *)
Definition exchange (price balance : Q) (decimals : nat)
    (positions : list AssetPosition) : Env :=
  {| all_mids := {[ "ETH"%string := price ]};
     marginSummary := Some balance;
     assetPositions := positions;
     universe := [("ETH"%string, decimals)];
     market_open := λ o, ReplyFilled (sz o) price 1 |}.

Definition eth (size : Q) : AssetPosition :=
  {| pos_coin := "ETH"; szi := size; markPx := Some 10 |}.

(** The limiter thresholds used when the environment variables are unset. *)
Definition limits : PositionLimiter.Config :=
  {| PositionLimiter.max_trades_per_coin_per_hour := 3;
     PositionLimiter.max_position_percent := 0.25;
     PositionLimiter.min_time_between_trades := 30 |}.

(** The limiter after one ETH trade of 10 USD recorded at time 0. *)
Definition one_trade : PositionLimiter.State :=
  PositionLimiter.record_trade PositionLimiter.empty 0 "ETH" 10.

(** Two hours, in microseconds. *)
Definition two_hours : Z := 2 * PositionLimiter.one_hour.

End Scenario.

(** * Verification *)

Section ArithFacts.

Local Open Scope Q_scope.

Lemma ltb_true a b : Py.ltb a b = true ↔ a < b.
Proof.
  unfold Py.ltb. destruct (Qlt_le_dec a b); split; intros; try done; lra.
Qed.

Lemma ltb_false a b : Py.ltb a b = false ↔ b <= a.
Proof.
  unfold Py.ltb. destruct (Qlt_le_dec a b); split; intros; try done; lra.
Qed.

Lemma fdiv_pos a b : 0 < b → Py.fdiv a b = Some (a / b).
Proof.
  intros Hb. unfold Py.fdiv.
  destruct (Qeq_bool b 0) eqn:E; [|done].
  apply Qeq_bool_iff in E. lra.
Qed.

Lemma div_mul_cancel a b : 0 < b → a / b * b == a.
Proof. intros Hb. field. lra. Qed.

End ArithFacts.

(** ** Sizing ([calculate_position_size]) *)

Section SizingFacts.

Import TradeExecutor Sizing.
Local Open Scope Q_scope.

Lemma gtb_true a b : Py.gtb a b = true ↔ b < a.
Proof. apply ltb_true. Qed.

Lemma gtb_false a b : Py.gtb a b = false ↔ a <= b.
Proof. apply ltb_false. Qed.

(** Whatever the method selects, the result is the floor and the clamp
    applied to some candidate size. *)
Lemma calculate_position_size_tail cfg env signal_size price :
  0 < price →
  ∃ my_size, calculate_position_size cfg env signal_size price
             = floor_then_clamp (get_account_balance env) price my_size.
Proof.
  intros Hp.
  unfold calculate_position_size, floor_then_clamp, is_wallet_method.
  rewrite !fdiv_pos by done.
  repeat (destruct (String.eqb _ _)); cbn; eexists; reflexivity.
Qed.

Lemma floor_then_clamp_bounds balance price my_size :
  0 < price →
  ∃ q, floor_then_clamp balance price my_size = Some q ∧
       q * price <= balance * 0.9 ∧
       (min_order_value <= balance * 0.9 → min_order_value <= q * price) ∧
       (balance * 0.9 < min_order_value → q * price == balance * 0.9).
Proof.
  intros Hp. unfold floor_then_clamp.
  rewrite !fdiv_pos by done.
  pose proof (div_mul_cancel min_order_value price Hp) as Hmin.
  pose proof (div_mul_cancel (balance * 0.9) price Hp) as Hsafe.
  destruct (Py.ltb (my_size * price) min_order_value) eqn:Hfloor; cbn;
    [apply ltb_true in Hfloor | apply ltb_false in Hfloor];
    (destruct (Py.gtb _ _) eqn:Hclamp;
      [apply gtb_true in Hclamp | apply gtb_false in Hclamp]);
    eexists; (split; [reflexivity|]); repeat split; intros; lra.
Qed.

(** C1, as amended.  For every sizing method (every string, the unknown
    ones included), every signal size and every positive price, the sizing
    returns a quantity whose order value is at most 90% of the account
    value; the order value is at least the minimum order value whenever 90%
    of the account value is, and it is exactly 90% of the account value
    otherwise. *)
Theorem calculate_position_size_bounds cfg env signal_size current_price :
  0 < current_price →
  ∃ q, calculate_position_size cfg env signal_size current_price = Some q ∧
       q * current_price <= get_account_balance env * 0.9 ∧
       (min_order_value <= get_account_balance env * 0.9 →
        min_order_value <= q * current_price) ∧
       (get_account_balance env * 0.9 < min_order_value →
        q * current_price == get_account_balance env * 0.9).
Proof.
  intros Hp.
  destruct (calculate_position_size_tail cfg env signal_size _ Hp)
    as [my_size ->].
  by apply floor_then_clamp_bounds.
Qed.

Lemma calculate_position_size_bounds_witness :
  ∃ q, calculate_position_size (Scenario.config "fixed_size")
         (Scenario.exchange 10 1000 2 []) 50 10 = Some q ∧
       q * 10 <= 1000 * 0.9 ∧ min_order_value <= q * 10.
Proof.
  destruct (calculate_position_size_bounds (Scenario.config "fixed_size")
              (Scenario.exchange 10 1000 2 []) 50 10)
    as (q & Hq & Hle & Hge & _); [reflexivity|].
  exists q. split; [exact Hq|]. split; [exact Hle|].
  apply Hge. vm_compute. discriminate.
Defined.

(** C1 as stated fails: with an account value of 5 the order value is
    4.5, below the minimum order value of 10. *)
Lemma calculate_position_size_below_minimum :
  ∃ q, calculate_position_size (Scenario.config "wallet_fixed")
         (Scenario.exchange 10 5 2 []) 50 10 = Some q ∧
       0 < 10 ∧ 0 <= get_account_balance (Scenario.exchange 10 5 2 []) ∧
       ¬ (min_order_value <= q * 10).
Proof.
  eexists. split; [vm_compute; reflexivity|].
  split; [reflexivity|]. split; [vm_compute; discriminate|].
  vm_compute. intros H. by apply H.
Qed.

(** C2, as amended.  With [wallet_fixed], a fixed amount of 10, an account
    value of 5 and a price of 10, the method selects 0.45 (an order value of
    4.5, the 90% cap), and the sizing returns 0.45 as well: the minimum-order
    floor raises the size to 1 but the final safety check brings it back to
    90% of the account value. *)
Theorem wallet_fixed_small_account cfg env signal_size balance :
  sizing_method cfg = "wallet_fixed"%string →
  wallet_fixed_amount cfg == 10 →
  marginSummary env = Some balance →
  balance == 5 →
  ∃ my_size q,
    my_size == 0.45 ∧
    calculate_position_size cfg env signal_size 10
      = floor_then_clamp balance 10 my_size ∧
    calculate_position_size cfg env signal_size 10 = Some q ∧
    q == 0.45 ∧ q * 10 == 4.5.
Proof.
  intros Hm Hfixed Hbal Hfive.
  exists (Py.min (wallet_fixed_amount cfg) (balance * 0.9) / 10).
  assert (Hsel : calculate_position_size cfg env signal_size 10
                 = floor_then_clamp balance 10
                     (Py.min (wallet_fixed_amount cfg) (balance * 0.9) / 10)).
  { unfold calculate_position_size, floor_then_clamp, is_wallet_method,
      get_account_balance.
    rewrite Hm, Hbal. cbn [String.eqb Ascii.eqb Bool.eqb negb orb andb].
    rewrite !fdiv_pos by reflexivity. reflexivity. }
  destruct (floor_then_clamp_bounds balance 10
              (Py.min (wallet_fixed_amount cfg) (balance * 0.9) / 10))
    as (q & Hq & _ & _ & Hsmall); [reflexivity|].
  exists q. unfold min_order_value in Hsmall.
  assert (Hv : q * 10 == 4.5) by (rewrite Hsmall; lra).
  split.
  { unfold Py.min. destruct (Py.ltb _ _) eqn:E.
    - rewrite Hfive. reflexivity.
    - apply ltb_false in E. exfalso. lra. }
  split; [exact Hsel|]. split; [by rewrite Hsel|]. split; [lra | exact Hv].
Qed.

Lemma wallet_fixed_small_account_witness :
  ∃ q, calculate_position_size (Scenario.config "wallet_fixed")
         (Scenario.exchange 10 5 2 []) 50 10 = Some q ∧ q == 0.45.
Proof.
  destruct (wallet_fixed_small_account (Scenario.config "wallet_fixed")
              (Scenario.exchange 10 5 2 []) 50 5)
    as (my_size & q & _ & _ & Hq & Hv & _); try reflexivity.
  exists q. split; [exact Hq | exact Hv].
Defined.

(** C2 as stated fails: the quantity returned in that scenario is not 1. *)
Lemma wallet_fixed_small_account_not_one :
  ¬ ∃ q, calculate_position_size (Scenario.config "wallet_fixed")
           (Scenario.exchange 10 5 2 []) 50 10 = Some q ∧ q == 1.
Proof.
  intros (q & Hq & Hone). vm_compute in Hq.
  injection Hq as <-. vm_compute in Hone. discriminate.
Qed.

End SizingFacts.

(** ** Rounding *)

Section RoundFacts.

Local Open Scope Q_scope.

Lemma Qabs_idem x : Qabs (Qabs x) = Qabs x.
Proof. destruct x as [n d]. cbn. by rewrite Z.abs_idemp. Qed.

Lemma ltb_comp a a' b b' : a == a' → b == b' → Py.ltb a b = Py.ltb a' b'.
Proof.
  intros Ha Hb. destruct (Py.ltb a' b') eqn:E.
  - apply ltb_true. apply ltb_true in E. lra.
  - apply ltb_false. apply ltb_false in E. lra.
Qed.

Lemma round_half_even_comp q q' :
  q == q' → Py.round_half_even q = Py.round_half_even q'.
Proof.
  intros Hq. unfold Py.round_half_even.
  rewrite (Qfloor_comp _ _ Hq).
  rewrite (ltb_comp (q - inject_Z (Qfloor q')) (q' - inject_Z (Qfloor q'))
             (1 # 2) (1 # 2)) by lra.
  rewrite (ltb_comp (1 # 2) (1 # 2) (q - inject_Z (Qfloor q'))
             (q' - inject_Z (Qfloor q'))) by lra.
  reflexivity.
Qed.

Lemma round_half_even_Z k : Py.round_half_even (inject_Z k) = k.
Proof.
  unfold Py.round_half_even. rewrite Qfloor_Z.
  replace (Py.ltb (inject_Z k - inject_Z k) (1 # 2)) with true; [done|].
  symmetry. apply ltb_true. lra.
Qed.

Lemma scale_pos n : 0 < inject_Z (10 ^ Z.of_nat n).
Proof.
  replace 0 with (inject_Z 0) by reflexivity. rewrite <- Zlt_Qlt.
  apply Z.pow_pos_nonneg; lia.
Qed.

(** Rounding leaves a size that already has [n] decimals as it is. *)
Lemma round_exact x k n :
  x == inject_Z k / inject_Z (10 ^ Z.of_nat n) → Py.round x n == x.
Proof.
  intros Hx. unfold Py.round. pose proof (scale_pos n) as Hs.
  rewrite (round_half_even_comp _ (inject_Z k)).
  - rewrite round_half_even_Z. by rewrite Hx.
  - rewrite Hx. field. lra.
Qed.

End RoundFacts.

(** ** Orders of the trade executor ([execute_market_order], [copy_trade]) *)

Section ExecutorFacts.

Import TradeExecutor.
Local Open Scope Q_scope.

Lemma eqb_neq_false (s t : string) : s ≠ t → String.eqb s t = false.
Proof. intros H. by apply String.eqb_neq. Qed.

(** A modification (neither OPEN nor CLOSE): ratio sizing, rounding, the
    minimum check, the balance check for buys, then the order. *)
Lemma execute_modify cfg env coin is_buy size action_type price :
  String.eqb action_type "OPEN" = false →
  String.eqb action_type "CLOSE" = false →
  all_mids env !! coin = Some price →
  let q := Py.round (Qabs size * account_ratio cfg)
             (get_asset_precision env coin) in
  let o := {| name := coin; is_buy := is_buy; sz := q; slippage := 0.02 |} in
  execute_market_order cfg env coin is_buy size action_type =
    if Py.ltb (q * price) min_order_value then (BelowMinimum (q * price), [])
    else if is_buy && Py.ltb (get_account_balance env) (q * price)
    then (InsufficientBalance (q * price) (get_account_balance env), [])
    else (parse_result (market_open env o) q (q * price), [o]).
Proof.
  intros Hopen Hclose Hmid. cbn zeta.
  unfold execute_market_order, calculated_size.
  rewrite Hmid, Hopen, Hclose. cbn [negb andb]. reflexivity.
Qed.

(** A close: the size as given, rounding, then the order; no minimum
    check, no balance check. *)
Lemma execute_close cfg env coin is_buy size price :
  all_mids env !! coin = Some price →
  let q := Py.round (Qabs size) (get_asset_precision env coin) in
  let o := {| name := coin; is_buy := is_buy; sz := q; slippage := 0.02 |} in
  execute_market_order cfg env coin is_buy size "CLOSE" =
    (parse_result (market_open env o) q (q * price), [o]).
Proof.
  intros Hmid. cbn zeta. unfold execute_market_order, calculated_size.
  rewrite Hmid. reflexivity.
Qed.

Lemma execute_unpriced cfg env coin is_buy size action_type :
  all_mids env !! coin = None →
  execute_market_order cfg env coin is_buy size action_type
  = (CoinNotFound coin, []).
Proof. intros Hmid. unfold execute_market_order. by rewrite Hmid. Qed.

(** The orders of [execute_market_order] for a modification. *)
Lemma execute_modify_orders cfg env coin is_buy size action_type :
  String.eqb action_type "OPEN" = false →
  String.eqb action_type "CLOSE" = false →
  let q := Py.round (Qabs size * account_ratio cfg)
             (get_asset_precision env coin) in
  let o := {| name := coin; is_buy := is_buy; sz := q; slippage := 0.02 |} in
  snd (execute_market_order cfg env coin is_buy size action_type) = [] ∨
  snd (execute_market_order cfg env coin is_buy size action_type) = [o].
Proof.
  intros Hopen Hclose. cbn zeta.
  destruct (all_mids env !! coin) as [price|] eqn:Hmid.
  - rewrite (execute_modify _ _ _ _ _ _ price) by done. cbn zeta.
    destruct (Py.ltb _ min_order_value); [by left|].
    destruct (is_buy && _); [by left | by right].
  - rewrite execute_unpriced by done. by left.
Qed.

(** C3, as amended.  For INCREASE and DECREASE every submitted order has
    quantity |signalSize| * accountRatio rounded to the instrument's
    precision: the sizing engine (method dispatch, cap, floor, clamp) is
    not run, so two configurations with the same ratio give the same
    outcome.  The order is submitted when the coin is quoted, the rounded
    order value reaches the minimum order value and is covered by the
    balance, and, for DECREASE, a nonzero position exists.  When the
    rounded order value is below the minimum order value the order is
    skipped: the outcome is the skipped below-minimum report and nothing
    is submitted. *)
Theorem modify_order_quantity cfg env coin signal_size action_type :
  action_type = "INCREASE"%string ∨ action_type = "DECREASE"%string →
  let q := Py.round (Qabs signal_size * account_ratio cfg)
             (get_asset_precision env coin) in
  (∀ o, o ∈ snd (copy_trade cfg env coin signal_size action_type) →
        name o = coin ∧ sz o = q) ∧
  (∀ cfg', account_ratio cfg' = account_ratio cfg →
           copy_trade cfg' env coin signal_size action_type
           = copy_trade cfg env coin signal_size action_type) ∧
  (∀ price,
     all_mids env !! coin = Some price →
     min_order_value <= q * price →
     q * price <= get_account_balance env →
     (action_type = "DECREASE"%string → is_Some (open_position env coin)) →
     ∃ b, snd (copy_trade cfg env coin signal_size action_type)
          = [{| name := coin; is_buy := b; sz := q; slippage := 0.02 |}]) ∧
  (∀ price,
     all_mids env !! coin = Some price →
     q * price < min_order_value →
     (action_type = "DECREASE"%string → is_Some (open_position env coin)) →
     copy_trade cfg env coin signal_size action_type
     = (BelowMinimum (q * price), []) ∧
     skipped (fst (copy_trade cfg env coin signal_size action_type)) = true).
Proof.
  intros Haction. cbn zeta.
  assert (Hopen : String.eqb action_type "OPEN" = false)
    by (destruct Haction as [-> | ->]; reflexivity).
  assert (Hclose : String.eqb action_type "CLOSE" = false)
    by (destruct Haction as [-> | ->]; reflexivity).
  assert (Horders : ∀ b o,
    o ∈ snd (execute_market_order cfg env coin b (Qabs signal_size)
               action_type) →
    name o = coin ∧
    sz o = Py.round (Qabs signal_size * account_ratio cfg)
             (get_asset_precision env coin)).
  { intros b o Ho.
    destruct (execute_modify_orders cfg env coin b (Qabs signal_size)
                action_type Hopen Hclose) as [E | E];
      rewrite E in Ho; rewrite ?Qabs_idem in Ho.
    - by apply elem_of_nil in Ho.
    - apply list_elem_of_singleton in Ho as ->. done. }
  assert (Hsubmit : ∀ b price,
    all_mids env !! coin = Some price →
    min_order_value
      <= Py.round (Qabs signal_size * account_ratio cfg)
           (get_asset_precision env coin) * price →
    Py.round (Qabs signal_size * account_ratio cfg)
      (get_asset_precision env coin) * price <= get_account_balance env →
    snd (execute_market_order cfg env coin b (Qabs signal_size) action_type)
    = [{| name := coin; is_buy := b;
          sz := Py.round (Qabs signal_size * account_ratio cfg)
                  (get_asset_precision env coin);
          slippage := 0.02 |}]).
  { intros b price Hmid Hmin Hbal.
    rewrite (execute_modify _ _ _ _ _ _ price) by done. cbn zeta.
    rewrite Qabs_idem.
    apply ltb_false in Hmin. rewrite Hmin.
    apply ltb_false in Hbal. rewrite Hbal.
    by rewrite andb_false_r. }
  assert (Hskip : ∀ b price,
    all_mids env !! coin = Some price →
    Py.round (Qabs signal_size * account_ratio cfg)
      (get_asset_precision env coin) * price < min_order_value →
    execute_market_order cfg env coin b (Qabs signal_size) action_type
    = (BelowMinimum
         (Py.round (Qabs signal_size * account_ratio cfg)
            (get_asset_precision env coin) * price), [])).
  { intros b price Hmid Hmin.
    rewrite (execute_modify _ _ _ _ _ _ price) by done. cbn zeta.
    rewrite Qabs_idem.
    apply ltb_true in Hmin. by rewrite Hmin. }
  split; [|split; [|split]].
  - intros o. unfold copy_trade.
    destruct Haction as [-> | ->]; cbn [String.eqb Ascii.eqb Bool.eqb].
    + apply Horders.
    + destruct (open_position env coin); [apply Horders|].
      cbn. intros Ho. by apply elem_of_nil in Ho.
  - intros cfg' Hratio. unfold copy_trade, execute_market_order.
    rewrite Hopen. 
    destruct Haction as [-> | ->]; cbn [String.eqb Ascii.eqb Bool.eqb];
      unfold calculated_size; cbn [String.eqb Ascii.eqb Bool.eqb];
      rewrite Hratio; reflexivity.
  - intros price Hmid Hmin Hbal Hpos. unfold copy_trade.
    destruct Haction as [-> | ->]; cbn [String.eqb Ascii.eqb Bool.eqb].
    + eexists. by apply Hsubmit with price.
    + destruct Hpos as [my_szi ->]; [done|].
      eexists. by apply Hsubmit with price.
  - intros price Hmid Hmin Hpos.
    assert (Hcopy : copy_trade cfg env coin signal_size action_type
                    = (BelowMinimum
                         (Py.round (Qabs signal_size * account_ratio cfg)
                            (get_asset_precision env coin) * price), [])).
    { unfold copy_trade.
      destruct Haction as [-> | ->]; cbn [String.eqb Ascii.eqb Bool.eqb].
      - by apply Hskip.
      - destruct Hpos as [my_szi ->]; [done|]. by apply Hskip. }
    by rewrite Hcopy.
Qed.

(** C3 as stated fails: with the default configuration, a price of 10
    and a signal of 100, the sizing engine gives 1 (the position cap) and
    OPEN submits 1, while INCREASE and DECREASE both submit 10. *)
Lemma modify_order_not_sized :
  let cfg := Scenario.config "fixed_ratio" in
  let env := Scenario.exchange 10 1000 2 [Scenario.eth 50] in
  ∃ q o_open o_inc o_dec,
    calculate_position_size cfg env (Qabs 100) 10 = Some q ∧
    snd (copy_trade cfg env "ETH" 100 "OPEN") = [o_open] ∧
    sz o_open == Py.round q (get_asset_precision env "ETH") ∧
    snd (copy_trade cfg env "ETH" 100 "INCREASE") = [o_inc] ∧
    ¬ sz o_inc == q ∧
    ¬ sz o_inc == Py.round q (get_asset_precision env "ETH") ∧
    snd (copy_trade cfg env "ETH" 100 "DECREASE") = [o_dec] ∧
    ¬ sz o_dec == q ∧
    ¬ sz o_dec == Py.round q (get_asset_precision env "ETH").
Proof.
  cbn zeta. do 4 eexists.
  repeat split; try (vm_compute; reflexivity); vm_compute; discriminate.
Qed.

Lemma modify_order_quantity_witness :
  (∃ b, snd (copy_trade (Scenario.config "fixed_size")
               (Scenario.exchange 10 1000 2 [Scenario.eth 50])
               "ETH" 100 "DECREASE")
        = [{| name := "ETH"; is_buy := b;
              sz := Py.round (Qabs 100 * 0.1) 2; slippage := 0.02 |}]) ∧
  copy_trade (Scenario.config "fixed_size")
    (Scenario.exchange 10 1000 2 [Scenario.eth 50]) "ETH" 1 "INCREASE"
  = (BelowMinimum (Py.round (Qabs 1 * 0.1) 2 * 10), []).
Proof.
  split.
  - destruct (modify_order_quantity (Scenario.config "fixed_size")
                (Scenario.exchange 10 1000 2 [Scenario.eth 50])
                "ETH" 100 "DECREASE") as (_ & _ & Hsubmit & _); [by right|].
    apply (Hsubmit 10).
    + reflexivity.
    + vm_compute. discriminate.
    + vm_compute. discriminate.
    + intros _. by eexists.
  - destruct (modify_order_quantity (Scenario.config "fixed_size")
                (Scenario.exchange 10 1000 2 [Scenario.eth 50])
                "ETH" 1 "INCREASE") as (_ & _ & _ & Hskip); [by left|].
    apply (Hskip 10).
    + reflexivity.
    + reflexivity.
    + discriminate.
Defined.

(** C5, as amended.  CLOSE without a nonzero position is skipped with
    "No position to close" and submits nothing, whatever the sizing
    configuration, the prices and the account value.  With a nonzero
    position and a quoted coin, the size before rounding is |signalSize|
    itself and the order submitted has that size rounded to the
    instrument's precision (so |signalSize| exactly when it has no more
    decimals than that), in the direction opposite to the position, with
    no minimum-order check; the outcome does not depend on the sizing
    configuration or on the account value. *)
Theorem close_order cfg env coin signal_size :
  (open_position env coin = None →
   copy_trade cfg env coin signal_size "CLOSE" = (NoPositionToClose, []) ∧
   skipped (fst (copy_trade cfg env coin signal_size "CLOSE")) = true) ∧
  (∀ cfg' balance,
     copy_trade cfg' (with_balance env balance) coin signal_size "CLOSE"
     = copy_trade cfg env coin signal_size "CLOSE") ∧
  (∀ my_szi price,
     open_position env coin = Some my_szi →
     all_mids env !! coin = Some price →
     let q := Py.round (Qabs signal_size) (get_asset_precision env coin) in
     let o := {| name := coin; is_buy := Py.ltb my_szi 0;
                 sz := q; slippage := 0.02 |} in
     calculated_size cfg env "CLOSE" (Qabs signal_size) price
     = Some (Qabs signal_size) ∧
     copy_trade cfg env coin signal_size "CLOSE"
     = (parse_result (market_open env o) q (q * price), [o]) ∧
     (∀ k, Qabs signal_size
           == inject_Z k
              / inject_Z (10 ^ Z.of_nat (get_asset_precision env coin)) →
           sz o == Qabs signal_size)).
Proof.
  split; [|split].
  - intros Hpos. unfold copy_trade. cbn [String.eqb Ascii.eqb Bool.eqb].
    by rewrite Hpos.
  - intros cfg' balance. unfold copy_trade.
    cbn [String.eqb Ascii.eqb Bool.eqb].
    replace (open_position (with_balance env balance) coin)
      with (open_position env coin) by reflexivity.
    destruct (open_position env coin) as [my_szi|]; [|reflexivity].
    destruct (all_mids env !! coin) as [price|] eqn:Hmid.
    + by rewrite !(execute_close _ _ _ _ _ price).
    + by rewrite !execute_unpriced.
  - intros my_szi price Hpos Hmid. cbn zeta. split; [|split].
    + unfold calculated_size. cbn [String.eqb Ascii.eqb Bool.eqb].
      by rewrite Qabs_idem.
    + unfold copy_trade. cbn [String.eqb Ascii.eqb Bool.eqb].
      rewrite Hpos, (execute_close _ _ _ _ _ price) by done.
      cbn zeta. by rewrite Qabs_idem.
    + intros k Hk. cbn [sz]. by apply round_exact with k.
Qed.

Lemma close_order_witness :
  copy_trade (Scenario.config "fixed_ratio")
    (Scenario.exchange 10 1000 2 []) "ETH" 50 "CLOSE"
  = (NoPositionToClose, []) ∧
  ∃ o, snd (copy_trade (Scenario.config "fixed_ratio")
              (Scenario.exchange 10 1000 2 [Scenario.eth 50])
              "ETH" (-0.5) "CLOSE") = [o] ∧
       is_buy o = false ∧ sz o == 0.5.
Proof.
  split.
  - destruct (close_order (Scenario.config "fixed_ratio")
                (Scenario.exchange 10 1000 2 []) "ETH" 50) as (Hnone & _).
    apply Hnone. reflexivity.
  - destruct (close_order (Scenario.config "fixed_ratio")
                (Scenario.exchange 10 1000 2 [Scenario.eth 50])
                "ETH" (-0.5)) as (_ & _ & Hclose).
    destruct (Hclose 50 10) as (_ & Hcopy & Hexact); [reflexivity..|].
    eexists. split; [by rewrite Hcopy|]. split; [reflexivity|].
    apply (Hexact 50%Z). reflexivity.
Defined.

(** C5 as stated fails: on an instrument with no size decimals a close
    for a signal of -12.75 submits 13, not 12.75. *)
Lemma close_order_rounded :
  ∃ o, snd (copy_trade (Scenario.config "fixed_ratio")
              (Scenario.exchange 10 1000 0 [Scenario.eth 20])
              "ETH" (-12.75) "CLOSE") = [o] ∧
       sz o == 13 ∧ ¬ sz o == Qabs (-12.75).
Proof.
  eexists. split; [vm_compute; reflexivity|].
  split; vm_compute; [reflexivity | discriminate].
Qed.

(** C10.  An insufficient-balance failure is returned only for a buy
    whose action is not CLOSE: a sell of any size and a CLOSE never get
    it, whatever the balance; a buy that is not a CLOSE gets it, before
    anything is submitted, when the balance is below the order value. *)
Theorem balance_check_only_for_buys cfg env coin buy size action_type :
  (buy = false ∨ action_type = "CLOSE"%string →
   ∀ need have,
     fst (execute_market_order cfg env coin buy size action_type)
     ≠ InsufficientBalance need have) ∧
  (∀ need have,
     fst (copy_trade cfg env coin size "CLOSE")
     ≠ InsufficientBalance need have) ∧
  (∀ price calculated,
     buy = true → action_type ≠ "CLOSE"%string →
     all_mids env !! coin = Some price →
     calculated_size cfg env action_type size price = Some calculated →
     let order_value :=
       Py.round calculated (get_asset_precision env coin) * price in
     min_order_value <= order_value →
     get_account_balance env < order_value →
     execute_market_order cfg env coin buy size action_type
     = (InsufficientBalance order_value (get_account_balance env), [])).
Proof.
  assert (Hnever : ∀ b s a,
    b = false ∨ a = "CLOSE"%string →
    ∀ need have,
      fst (execute_market_order cfg env coin b s a)
      ≠ InsufficientBalance need have).
  { intros b s a Hcase need have. unfold execute_market_order.
    destruct (all_mids env !! coin) as [price|]; [|done].
    destruct (calculated_size cfg env a s price) as [c|]; [|done].
    destruct (negb (String.eqb a "CLOSE") && Py.ltb _ min_order_value);
      [done|].
    replace (negb (String.eqb a "CLOSE") && b) with false.
    - cbn. by destruct (market_open env _).
    - destruct Hcase as [-> | ->]; [by rewrite andb_false_r | done]. }
  split; [|split].
  - apply Hnever.
  - intros need have. unfold copy_trade.
    cbn [String.eqb Ascii.eqb Bool.eqb].
    destruct (open_position env coin); [|done].
    apply Hnever. by right.
  - intros price calculated -> Haction Hmid Hcalc. cbn zeta.
    intros Hmin Hbal. unfold execute_market_order.
    rewrite Hmid, Hcalc, (eqb_neq_false _ _ Haction). cbn [negb andb].
    apply ltb_false in Hmin. rewrite Hmin.
    apply ltb_true in Hbal. by rewrite Hbal.
Qed.

Lemma balance_check_only_for_buys_witness :
  snd (execute_market_order (Scenario.config "fixed_ratio")
         (Scenario.exchange 10 0 2 []) "ETH" false 1000 "INCREASE")
  ≠ [] ∧
  execute_market_order (Scenario.config "fixed_ratio")
    (Scenario.exchange 10 0 2 []) "ETH" true 1000 "INCREASE"
  = (InsufficientBalance (Py.round (Qabs 1000 * 0.1) 2 * 10) 0, []).
Proof.
  split; [vm_compute; discriminate|].
  destruct (balance_check_only_for_buys (Scenario.config "fixed_ratio")
              (Scenario.exchange 10 0 2 []) "ETH" true 1000 "INCREASE")
    as (_ & _ & Hcheck).
  apply (Hcheck 10 (Qabs 1000 * 0.1)); try reflexivity; discriminate.
Defined.

End ExecutorFacts.

(** ** The position limiter *)

Section LimiterFacts.

Import PositionLimiter.
Local Open Scope Q_scope.

Lemma recent_trades_all now (trades : list Z) :
  (∀ t, t ∈ trades → (now - one_hour < t)%Z) →
  recent_trades now trades = trades.
Proof.
  unfold recent_trades. induction trades as [|t trades IH]; intros Hall.
  - reflexivity.
  - cbn. replace (now - one_hour <? t)%Z with true.
    + f_equal. apply IH. intros u Hu. apply Hall. by right.
    + symmetry. apply Z.ltb_lt, Hall. by left.
Qed.

(** What a call may change, whatever it returns: nothing but the trade
    history of the coin asked about, and that only by dropping entries. *)
Lemma should_allow_trade_frame cfg st now coin trade_value balance :
  let st' := snd (should_allow_trade cfg st now coin trade_value balance) in
  last_trade_time st' = last_trade_time st ∧
  position_values st' = position_values st ∧
  (∀ c, c ≠ coin → trade_history st' !! c = trade_history st !! c) ∧
  (trade_history st' !! coin = trade_history st !! coin ∨
   trade_history st' !! coin = recent_trades now <$> trade_history st !! coin).
Proof.
  cbn zeta. unfold should_allow_trade.
  destruct (match last_trade_time st !! coin with
            | Some _ => _ | None => _ end).
  { cbn. by repeat split; [..|left]. }
  destruct (trade_history st !! coin) as [trades|] eqn:Hhist.
  - assert (∀ b : bool,
      last_trade_time (snd (b, {|
        trade_history := <[coin := recent_trades now trades]>
                           (trade_history st);
        last_trade_time := last_trade_time st;
        position_values := position_values st |})) = last_trade_time st ∧
      position_values (snd (b, {|
        trade_history := <[coin := recent_trades now trades]>
                           (trade_history st);
        last_trade_time := last_trade_time st;
        position_values := position_values st |})) = position_values st ∧
      (∀ c, c ≠ coin →
         trade_history (snd (b, {|
           trade_history := <[coin := recent_trades now trades]>
                              (trade_history st);
           last_trade_time := last_trade_time st;
           position_values := position_values st |})) !! c
         = trade_history st !! c) ∧
      (trade_history (snd (b, {|
           trade_history := <[coin := recent_trades now trades]>
                              (trade_history st);
           last_trade_time := last_trade_time st;
           position_values := position_values st |})) !! coin = Some trades ∨
       trade_history (snd (b, {|
           trade_history := <[coin := recent_trades now trades]>
                              (trade_history st);
           last_trade_time := last_trade_time st;
           position_values := position_values st |})) !! coin
       = recent_trades now <$> Some trades)) as Hpruned.
    { intros b. cbn. repeat split.
      - intros c Hc. by rewrite lookup_insert_ne.
      - right. by rewrite lookup_insert_eq. }
    destruct (_ <=? _)%Z; apply Hpruned.
  - cbn. rewrite Hhist. by repeat split; [..|left].
Qed.

(** When the call returns true it went through the pruning of the hourly
    check, if the coin has a history. *)
Lemma should_allow_trade_true cfg st now coin trade_value balance :
  fst (should_allow_trade cfg st now coin trade_value balance) = true →
  trade_history
    (snd (should_allow_trade cfg st now coin trade_value balance)) !! coin
  = recent_trades now <$> trade_history st !! coin.
Proof.
  unfold should_allow_trade.
  destruct (match last_trade_time st !! coin with
            | Some _ => _ | None => _ end); [done|].
  destruct (trade_history st !! coin) as [trades|] eqn:Hhist.
  - destruct (_ <=? _)%Z; [done|]. intros _. cbn.
    by rewrite lookup_insert_eq.
  - intros _. cbn. by rewrite Hhist.
Qed.

Lemma state_eq (st st' : State) :
  trade_history st' = trade_history st →
  last_trade_time st' = last_trade_time st →
  position_values st' = position_values st →
  st' = st.
Proof. destruct st, st'. cbn. by intros -> -> ->. Qed.

(** C4, as amended.  When [should_allow_trade] returns true, the last
    trade times, the tracked position values and the trade histories of
    the other coins are as before the call; the trade history of the coin
    asked about has been replaced by its entries of the last hour.  The
    state is exactly as before when that history had no older entry. *)
Theorem should_allow_trade_state cfg st now coin trade_value balance :
  fst (should_allow_trade cfg st now coin trade_value balance) = true →
  let st' := snd (should_allow_trade cfg st now coin trade_value balance) in
  last_trade_time st' = last_trade_time st ∧
  position_values st' = position_values st ∧
  (∀ c, c ≠ coin → trade_history st' !! c = trade_history st !! c) ∧
  trade_history st' !! coin
  = recent_trades now <$> trade_history st !! coin ∧
  ((∀ trades t, trade_history st !! coin = Some trades → t ∈ trades →
                (now - one_hour < t)%Z) →
   st' = st).
Proof.
  intros Htrue. cbn zeta.
  destruct (should_allow_trade_frame cfg st now coin trade_value balance)
    as (Hlast & Hpos & Hother & _).
  pose proof (should_allow_trade_true _ _ _ _ _ _ Htrue) as Hcoin.
  repeat split; try done.
  intros Hrecent. apply state_eq; try done.
  apply map_eq. intros c. destruct (decide (c = coin)) as [-> | Hc].
  - rewrite Hcoin.
    destruct (trade_history st !! coin) as [trades|] eqn:Hhist; [|done].
    cbn. f_equal. apply recent_trades_all. intros t Ht.
    by apply (Hrecent trades).
  - by apply Hother.
Qed.

Lemma should_allow_trade_state_witness :
  let r := should_allow_trade Scenario.limits Scenario.one_trade
             Scenario.two_hours "ETH" 10 1000 in
  fst r = true ∧
  last_trade_time (snd r) = last_trade_time Scenario.one_trade ∧
  position_values (snd r) = position_values Scenario.one_trade ∧
  trade_history (snd r) !! "ETH"%string = Some [].
Proof.
  cbn zeta.
  destruct (should_allow_trade_state Scenario.limits Scenario.one_trade
              Scenario.two_hours "ETH" 10 1000)
    as (Hlast & Hpos & _ & Hcoin & _); [reflexivity|].
  split; [reflexivity|]. split; [exact Hlast|]. split; [exact Hpos|].
  rewrite Hcoin. reflexivity.
Defined.

(** C4 as stated fails: two hours after a recorded trade the call returns
    true and has emptied the coin's trade history. *)
Lemma should_allow_trade_prunes :
  let r := should_allow_trade Scenario.limits Scenario.one_trade
             Scenario.two_hours "ETH" 10 1000 in
  fst r = true ∧
  trade_history Scenario.one_trade !! "ETH"%string = Some [0%Z] ∧
  trade_history (snd r) !! "ETH"%string = Some [] ∧
  snd r ≠ Scenario.one_trade.
Proof.
  cbn zeta.
  assert (Hold : trade_history Scenario.one_trade !! "ETH"%string
                 = Some [0%Z]) by reflexivity.
  assert (Hnew : trade_history
                   (snd (should_allow_trade Scenario.limits
                           Scenario.one_trade Scenario.two_hours
                           "ETH" 10 1000)) !! "ETH"%string
                 = Some []) by reflexivity.
  split; [reflexivity|]. split; [exact Hold|]. split; [exact Hnew|].
  intros Heq. rewrite Heq, Hold in Hnew. discriminate.
Qed.

(** C9.  [reset_position] removes the tracked position value of the coin
    and nothing else: the trade histories and the last trade times of all
    coins, and the position values of the other coins, are unchanged. *)
Theorem reset_position_frame st coin :
  trade_history (reset_position st coin) = trade_history st ∧
  last_trade_time (reset_position st coin) = last_trade_time st ∧
  position_values (reset_position st coin) !! coin = None ∧
  (∀ c, c ≠ coin →
        position_values (reset_position st coin) !! c
        = position_values st !! c).
Proof.
  unfold reset_position. cbn. repeat split.
  - apply lookup_delete_eq.
  - intros c Hc. by apply lookup_delete_ne.
Qed.

Lemma reset_position_frame_witness :
  let st := record_trade Scenario.one_trade 5 "BTC" 20 in
  trade_history (reset_position st "ETH") !! "ETH"%string = Some [0%Z] ∧
  position_values (reset_position st "ETH") !! "ETH"%string = None ∧
  position_values (reset_position st "ETH") !! "BTC"%string
  = position_values st !! "BTC"%string.
Proof.
  cbn zeta.
  destruct (reset_position_frame
              (record_trade Scenario.one_trade 5 "BTC" 20) "ETH")
    as (Hhist & _ & Hcoin & Hother).
  split; [by rewrite Hhist|]. split; [exact Hcoin|].
  apply Hother. discriminate.
Defined.

End LimiterFacts.

(** ** Rebalancing ([rebalance_position]) *)

Section RebalanceFacts.

Import PortfolioExecutor.
Local Open Scope Q_scope.

Lemma neqb_true a b : Py.neqb a b = true ↔ ¬ a == b.
Proof.
  unfold Py.neqb. rewrite negb_true_iff. split.
  - intros E H. apply Qeq_bool_iff in H. congruence.
  - intros H. destruct (Qeq_bool a b) eqn:E; [|done].
    apply Qeq_bool_iff in E. done.
Qed.

Lemma neqb_false a b : Py.neqb a b = false ↔ a == b.
Proof. unfold Py.neqb. rewrite negb_false_iff. apply Qeq_bool_iff. Qed.

Lemma geb_true a b : Py.geb a b = true ↔ b <= a.
Proof. unfold Py.geb. rewrite negb_true_iff. apply ltb_false. Qed.

Lemma geb_false a b : Py.geb a b = false ↔ a < b.
Proof. unfold Py.geb. rewrite negb_false_iff. apply ltb_true. Qed.

Lemma Qabs_scale x p : 0 < p → Qabs (x * p) == Qabs x * p.
Proof. intros Hp. rewrite Qabs_Qmult, (Qabs_pos p) by lra. reflexivity. Qed.

Lemma Qabs_cases x : (0 <= x ∧ Qabs x == x) ∨ (x < 0 ∧ Qabs x == - x).
Proof.
  destruct (Qlt_le_dec x 0) as [H | H].
  - right. split; [done|]. apply Qabs_neg. lra.
  - left. split; [done|]. by apply Qabs_pos.
Qed.

(** Follow the branch taken by [rebalance_position]. *)
Ltac branch :=
  match goal with
  | |- context [snd (if ?b then _ else _)] => destruct b eqn:?
  end.

(** Turn the outcomes of the tests into propositions. *)
Ltac tests_to_props :=
  repeat match goal with
  | H : _ && _ = true |- _ => apply andb_true_iff in H as [? ?]
  | H : _ && _ = false |- _ => apply andb_false_iff in H as [H | H]
  | H : Py.geb _ _ = true |- _ => apply geb_true in H
  | H : Py.geb _ _ = false |- _ => apply geb_false in H
  | H : Py.gtb _ _ = true |- _ => apply gtb_true in H
  | H : Py.gtb _ _ = false |- _ => apply gtb_false in H
  | H : Py.ltb _ _ = true |- _ => apply ltb_true in H
  | H : Py.ltb _ _ = false |- _ => apply ltb_false in H
  | H : Py.neqb _ _ = true |- _ => apply neqb_true in H
  | H : Py.neqb _ _ = false |- _ => apply neqb_false in H
  | H : Qeq_bool _ _ = true |- _ => apply Qeq_bool_iff in H
  | H : Qeq_bool _ _ = false |- _ => apply Qeq_bool_neq in H
  end.

(** With a positive price the target size is defined, has the sign of the
    direction, and is worth the target value (nothing for a target value
    that is not positive). *)
Lemma target_size_pos target_value price is_long :
  0 < price →
  ∃ ts, target_size target_value price is_long = Some ts ∧
        (is_long = true → 0 <= ts) ∧ (is_long = false → ts <= 0) ∧
        (0 < target_value → Qabs ts * price == target_value) ∧
        (target_value <= 0 → ts == 0).
Proof.
  intros Hp. unfold target_size.
  destruct (Py.gtb target_value 0) eqn:Hpos;
    [apply gtb_true in Hpos | apply gtb_false in Hpos].
  - rewrite fdiv_pos by done. cbn [mbind option_bind].
    assert (Hnn : 0 <= target_value / price)
      by (apply Qle_shift_div_l; lra).
    pose proof (div_mul_cancel target_value price Hp) as Hdiv.
    remember (target_value / price) as t0 eqn:Et0. clear Et0.
    pose proof (Qabs_pos _ Hnn) as Habs.
    eexists. split; [reflexivity|].
    destruct is_long; repeat split; intros; try done;
      rewrite ?Qabs_opp, ?Qabs_idem, ?Habs; lra.
  - cbn [mbind option_bind]. eexists. split; [reflexivity|].
    destruct is_long; repeat split; intros; try done; try lra;
      vm_compute; done.
Qed.

(** C7.  With a positive price, whenever |targetValue| is below the
    minimum order value and there is a position, the one order submitted
    closes it in full: its quantity is |currentSize| and it is a buy
    exactly when the position is short, whatever the size difference. *)
Theorem rebalance_close_below_minimum env coin target_value price is_long :
  0 < price →
  Qabs target_value < min_order_value →
  ¬ fst (get_current_position env coin) == 0 →
  snd (rebalance_position env coin target_value price is_long)
  = [{| name := coin;
        is_buy := Py.ltb (fst (get_current_position env coin)) 0;
        sz := Qabs (fst (get_current_position env coin));
        slippage := 0.02 |}].
Proof.
  intros Hp Htv Hcur. unfold rebalance_position, target_size.
  rewrite fdiv_pos by done.
  apply ltb_true in Htv. apply neqb_true in Hcur.
  destruct (Py.gtb target_value 0); cbn [mbind option_bind];
    rewrite Htv, Hcur; reflexivity.
Qed.

Lemma rebalance_close_below_minimum_witness :
  snd (rebalance_position (Scenario.exchange 10 1000 2 [Scenario.eth 3])
         "ETH" 5 10 true)
  = [{| name := "ETH"; is_buy := false; sz := Qabs 3; slippage := 0.02 |}].
Proof.
  apply (rebalance_close_below_minimum
           (Scenario.exchange 10 1000 2 [Scenario.eth 3]) "ETH" 5 10 true).
  - reflexivity.
  - reflexivity.
  - vm_compute. discriminate.
Defined.

(** C6.  With a positive price, a target of at least the minimum order
    value in magnitude, a change worth at least the minimum order value, a
    position, and |sizeDiff| >= 0.9 |currentSize|: the first order closes
    the position in full (quantity |currentSize|, a buy exactly when the
    position is short); when targetValue >= minOrderValue a second order
    follows, of quantity |targetSize| on the target's side, and otherwise
    the call ends after the close and reports it as closed. *)
Theorem rebalance_close_then_open env coin target_value price is_long ts :
  let current_size := fst (get_current_position env coin) in
  let close := {| name := coin; is_buy := Py.ltb current_size 0;
                  sz := Qabs current_size; slippage := 0.02 |} in
  let reopen := {| name := coin; is_buy := is_long;
                   sz := Qabs ts; slippage := 0.02 |} in
  0 < price →
  target_size target_value price is_long = Some ts →
  min_order_value <= Qabs target_value →
  min_order_value <= Qabs ((ts - current_size) * price) →
  ¬ current_size == 0 →
  Qabs current_size * 0.9 <= Qabs (ts - current_size) →
  (min_order_value <= target_value →
   snd (rebalance_position env coin target_value price is_long)
   = [close; reopen]) ∧
  (target_value < min_order_value →
   rebalance_position env coin target_value price is_long
   = (Closed price, [close])).
Proof.
  cbn zeta. intros Hp Hts Htv Hdiff Hcur Hbig.
  unfold rebalance_position. rewrite Hts.
  apply ltb_false in Htv. rewrite Htv. cbn [andb].
  apply ltb_false in Hdiff. rewrite Hdiff.
  apply neqb_true in Hcur. unfold Py.neqb in Hcur.
  apply negb_true_iff in Hcur. rewrite Hcur.
  apply geb_true in Hbig. rewrite Hbig.
  split; intros Hcmp.
  - apply geb_true in Hcmp. rewrite Hcmp. reflexivity.
  - apply geb_false in Hcmp. rewrite Hcmp. reflexivity.
Qed.

(** The direction flip of the specification: long 100, target 500 short at
    a price of 5. *)
Lemma rebalance_close_then_open_witness :
  ∃ close reopen,
    snd (rebalance_position
           (Scenario.exchange 5 1000 2 [Scenario.eth 100])
           "ETH" 500 5 false) = [close; reopen] ∧
    is_buy close = false ∧ sz close == 100 ∧
    is_buy reopen = false ∧ sz reopen == 100.
Proof.
  destruct (rebalance_close_then_open
              (Scenario.exchange 5 1000 2 [Scenario.eth 100])
              "ETH" 500 5 false (- Qabs (500 / 5)))
    as [Hopen _]; try reflexivity; try (vm_compute; discriminate).
  do 2 eexists. split; [apply Hopen; vm_compute; discriminate|].
  repeat split.
Defined.

(** The skip: the target is at or above the minimum, or there is no
    position, and the change is worth less than the minimum. *)
Lemma rebalance_skips env coin target_value price is_long ts :
  target_size target_value price is_long = Some ts →
  min_order_value <= Qabs target_value
  ∨ fst (get_current_position env coin) == 0 →
  Qabs ((ts - fst (get_current_position env coin)) * price)
  < min_order_value →
  rebalance_position env coin target_value price is_long
  = (ChangeTooSmall
       (Qabs ((ts - fst (get_current_position env coin)) * price)), []).
Proof.
  intros Hts Hguard Hsmall. unfold rebalance_position. rewrite Hts.
  replace (Py.ltb (Qabs target_value) min_order_value
           && Py.neqb (fst (get_current_position env coin)) 0) with false.
  - apply ltb_true in Hsmall. by rewrite Hsmall.
  - symmetry. destruct Hguard as [H | H].
    + apply ltb_false in H. by rewrite H.
    + apply neqb_false in H. rewrite H. apply andb_false_r.
Qed.

(** Selling a long or buying back a short of the full size leaves no
    position. *)
Lemma fill_close coin c s :
  after_fill c {| name := coin; is_buy := Py.ltb c 0;
                  sz := Qabs c; slippage := s |} == 0.
Proof.
  unfold after_fill. cbn [is_buy sz].
  destruct (Py.ltb c 0) eqn:E; tests_to_props;
    destruct (Qabs_cases c) as [[? ->] | [? ->]]; lra.
Qed.

(** An adjustment by the difference reaches the target. *)
Lemma fill_adjust coin c target s :
  after_fill c {| name := coin; is_buy := Py.gtb (target - c) 0;
                  sz := Qabs (target - c); slippage := s |} == target.
Proof.
  unfold after_fill. cbn [is_buy sz].
  destruct (Py.gtb (target - c) 0) eqn:E; tests_to_props;
    destruct (Qabs_cases (target - c)) as [[? ->] | [? ->]]; lra.
Qed.

(** An order of the target's size on its side, from no position, reaches
    the target. *)
Lemma fill_open coin c target size (long : bool) s :
  c == 0 → size == Qabs target →
  (long = true → 0 <= target) → (long = false → target <= 0) →
  after_fill c {| name := coin; is_buy := long;
                  sz := size; slippage := s |} == target.
Proof.
  intros Hc Hsize Hlong Hshort. unfold after_fill. cbn [is_buy sz].
  destruct long; [specialize (Hlong eq_refl) | specialize (Hshort eq_refl)];
    rewrite Hsize;
    destruct (Qabs_cases target) as [[? ->] | [? ->]]; lra.
Qed.

Lemma at_target target position price :
  position == target → Qabs ((target - position) * price) < 10.
Proof.
  intros ->. assert (E : (target - target) * price == 0) by ring.
  rewrite E. reflexivity.
Qed.

Lemma from_flat target position price :
  position == 0 →
  Qabs ((target - position) * price) == Qabs (target * price).
Proof.
  intros ->. assert (E : target - 0 == target) by ring. by rewrite E.
Qed.

(** Once the orders of a call have filled, the position passes the skip
    test of the next call. *)
Lemma rebalance_converges env coin target_value price is_long ts :
  0 < price →
  target_size target_value price is_long = Some ts →
  (is_long = true → 0 <= ts) → (is_long = false → ts <= 0) →
  (0 < target_value → Qabs ts * price == target_value) →
  (target_value <= 0 → ts == 0) →
  let position :=
    fold_left after_fill
      (snd (rebalance_position env coin target_value price is_long))
      (fst (get_current_position env coin)) in
  (min_order_value <= Qabs target_value ∨ position == 0) ∧
  Qabs ((ts - position) * price) < min_order_value.
Proof.
  intros Hp Hts Hlong Hshort Hval Hzero. cbn zeta.
  assert (Hvalue : (0 < target_value ∧ Qabs (ts * price) == target_value) ∨
                   (target_value <= 0 ∧ Qabs (ts * price) == 0)).
  { destruct (Qlt_le_dec 0 target_value) as [H | H]; [left | right];
      (split; [done|]); rewrite Qabs_scale by done.
    - by apply Hval.
    - rewrite (Hzero H). reflexivity. }
  clear Hval Hzero.
  unfold rebalance_position. rewrite Hts.
  set (c := fst (get_current_position env coin)). clearbody c.
  unfold min_order_value in *.
  pose proof (Qabs_cases target_value) as Habs.
  repeat branch; tests_to_props; cbn [snd fold_left execute];
    try contradiction.
  - (* below the minimum: the position is closed *)
    split; [right; apply fill_close|].
    rewrite from_flat by apply fill_close.
    destruct Hvalue as [[? ->] | [? ->]], Habs as [[? ?] | [? ?]]; lra.
  - (* change too small, target at or above the minimum *)
    split; [by left | done].
  - (* change too small, no position *)
    split; [by right | done].
  - (* open, target at or above the minimum *)
    split; [by left|]. apply at_target. apply fill_open; try done.
    match goal with H : _ == 0 |- _ => rewrite H end.
    assert (E : ts - 0 == ts) by ring. by rewrite E.
  - (* open from no position *)
    match goal with H : 10 <= Qabs ((ts - c) * price) |- _ =>
      rewrite from_flat in H by done end.
    split.
    + left. destruct Hvalue as [[? Hv] | [? Hv]], Habs as [[? ?] | [? ?]];
        rewrite Hv in *; lra.
    + apply at_target. apply fill_open; try done.
      match goal with H : _ == 0 |- _ => rewrite H end.
      assert (E : ts - 0 == ts) by ring. by rewrite E.
  - (* close, then open *)
    split; [by left|]. apply at_target.
    apply fill_open; try done. apply fill_close.
  - (* close only *)
    split; [by left|]. rewrite from_flat by apply fill_close.
    destruct Hvalue as [[? ->] | [? ->]]; lra.
  - (* adjust *)
    split; [by left|]. apply at_target. apply fill_adjust.
Qed.

(** C8.  With a positive price a rebalance is idempotent up to the
    minimum-order guard: when the target is at least the minimum order
    value in magnitude and the change is worth less than it (in particular
    when the position equals the target), the call submits nothing and
    reports a skip; and after any call, once its orders have filled in
    full, a second call with the same arguments submits nothing and
    reports a skip. *)
Theorem rebalance_idempotent env env' coin target_value price is_long :
  0 < price →
  (∀ ts, target_size target_value price is_long = Some ts →
         min_order_value <= Qabs target_value →
         (Qabs ((ts - fst (get_current_position env coin)) * price)
          < min_order_value
          ∨ fst (get_current_position env coin) == ts) →
         snd (rebalance_position env coin target_value price is_long) = [] ∧
         skipped (fst (rebalance_position env coin target_value price
                         is_long)) = true) ∧
  (fst (get_current_position env' coin)
   == fold_left after_fill
        (snd (rebalance_position env coin target_value price is_long))
        (fst (get_current_position env coin)) →
   snd (rebalance_position env' coin target_value price is_long) = [] ∧
   skipped (fst (rebalance_position env' coin target_value price
                   is_long)) = true).
Proof.
  intros Hp. split.
  - intros ts Hts Htv Hsmall.
    rewrite (rebalance_skips _ _ _ _ _ ts); [done | done | by left |].
    destruct Hsmall as [H | H]; [done|]. by apply at_target.
  - intros Hfilled.
    destruct (target_size_pos target_value price is_long Hp)
      as (ts & Hts & Hlong & Hshort & Hval & Hzero).
    destruct (rebalance_converges env coin target_value price is_long ts)
      as [Hguard Hsmall]; try done.
    rewrite <- Hfilled in Hguard, Hsmall.
    by rewrite (rebalance_skips _ _ _ _ _ ts).
Qed.

(** After the direction flip (long 100 to short 100 at a price of 5) has
    filled, the same call is a skip; so is a call on a position already at
    its target. *)
Lemma rebalance_idempotent_witness :
  (snd (rebalance_position
          (Scenario.exchange 5 1000 2 [Scenario.eth (-100)])
          "ETH" 500 5 false) = [] ∧
   skipped (fst (rebalance_position
                   (Scenario.exchange 5 1000 2 [Scenario.eth (-100)])
                   "ETH" 500 5 false)) = true) ∧
  snd (rebalance_position
         (Scenario.exchange 5 1000 2 [Scenario.eth 100])
         "ETH" 500 5 true) = [].
Proof.
  split.
  - apply (rebalance_idempotent
             (Scenario.exchange 5 1000 2 [Scenario.eth 100])
             (Scenario.exchange 5 1000 2 [Scenario.eth (-100)])
             "ETH" 500 5 false); reflexivity.
  - destruct (rebalance_idempotent
                (Scenario.exchange 5 1000 2 [Scenario.eth 100])
                (Scenario.exchange 5 1000 2 [Scenario.eth 100])
                "ETH" 500 5 true) as [Hguard _]; [reflexivity|].
    apply (Hguard (Qabs (500 / 5))).
    + reflexivity.
    + vm_compute. discriminate.
    + right. reflexivity.
Defined.

End RebalanceFacts.

(** * Further properties *)

(** ** Sizing: methods, cap and zero price *)

Section SizingMethods.

Import TradeExecutor Sizing.
Local Open Scope Q_scope.

Lemma Qabs_opp_eq x : Qabs (- x) = Qabs x.
Proof. destruct x as [n d]. cbn. by rewrite Z.abs_opp. Qed.

(** A size between the floor and the clamp goes through unchanged. *)
Lemma floor_then_clamp_id balance price my_size :
  min_order_value <= my_size * price →
  my_size * price <= balance * 0.9 →
  floor_then_clamp balance price my_size = Some my_size.
Proof.
  intros Hmin Hsafe. unfold floor_then_clamp.
  apply ltb_false in Hmin. rewrite Hmin. cbn.
  apply gtb_false in Hsafe. by rewrite Hsafe.
Qed.

Lemma floor_then_clamp_le balance price my_size bound :
  0 < price →
  my_size * price <= bound → min_order_value <= bound →
  ∃ q, floor_then_clamp balance price my_size = Some q ∧
       q * price <= bound.
Proof.
  intros Hp Hsize Hbound. unfold floor_then_clamp.
  rewrite !fdiv_pos by done.
  pose proof (div_mul_cancel min_order_value price Hp) as Hmin.
  pose proof (div_mul_cancel (balance * 0.9) price Hp) as Hsafe.
  destruct (Py.ltb (my_size * price) min_order_value) eqn:Hfloor; cbn;
    [apply ltb_true in Hfloor | apply ltb_false in Hfloor];
    (destruct (Py.gtb _ _) eqn:Hclamp;
      [apply gtb_true in Hclamp | apply gtb_false in Hclamp]);
    eexists; (split; [reflexivity|]); lra.
Qed.

(** X1.  For the methods that are not wallet based (fixed_ratio,
    fixed_size and every unknown method) and a positive price, the order
    value of the returned quantity is at most the larger of the position
    cap and the minimum order value. *)
Theorem calculate_position_size_cap cfg env signal_size price :
  0 < price →
  is_wallet_method (sizing_method cfg) = false →
  ∃ q, calculate_position_size cfg env signal_size price = Some q ∧
       (min_order_value <= max_position_size cfg →
        q * price <= max_position_size cfg) ∧
       (max_position_size cfg < min_order_value →
        q * price <= min_order_value).
Proof.
  intros Hp Hwallet.
  assert (Hcap : ∃ my_size,
    calculate_position_size cfg env signal_size price
    = floor_then_clamp (get_account_balance env) price my_size ∧
    my_size * price <= max_position_size cfg).
  { unfold calculate_position_size, floor_then_clamp.
    rewrite Hwallet. unfold is_wallet_method in Hwallet.
    apply orb_false_iff in Hwallet as [-> ->].
    rewrite !fdiv_pos by done.
    pose proof (div_mul_cancel (max_position_size cfg) price Hp) as Hmax.
    destruct (String.eqb (sizing_method cfg) "fixed_ratio"),
      (String.eqb (sizing_method cfg) "fixed_size");
      cbn;
      (destruct (Py.gtb _ _) eqn:E;
        [apply gtb_true in E | apply gtb_false in E]);
      eexists; (split; [reflexivity|]);
      try lra;
      (apply (Qmult_le_r _ _ price Hp) in E; lra). }
  destruct Hcap as (my_size & -> & Hsize).
  destruct (Qlt_le_dec (max_position_size cfg) min_order_value) as [H | H].
  - destruct (floor_then_clamp_le (get_account_balance env) price my_size
                min_order_value) as (q & Hq & Hle); try done; try lra.
    exists q. split; [done|]. split; intros; lra.
  - destruct (floor_then_clamp_le (get_account_balance env) price my_size
                (max_position_size cfg)) as (q & Hq & Hle); try done.
    exists q. split; [done|]. split; intros; lra.
Qed.

Lemma calculate_position_size_cap_witness :
  ∃ q, calculate_position_size (Scenario.config "fixed_ratio")
         (Scenario.exchange 10 1000 2 []) 15000 10 = Some q ∧
       q * 10 <= 10.
Proof.
  destruct (calculate_position_size_cap (Scenario.config "fixed_ratio")
              (Scenario.exchange 10 1000 2 []) 15000 10)
    as (q & Hq & Hle & _); try reflexivity.
  exists q. split; [exact Hq|]. apply Hle. vm_compute. discriminate.
Defined.

(** X2.  The sizing depends on the signal only through its magnitude, and
    the methods fixed_size, wallet_percentage and wallet_fixed do not
    depend on the signal at all. *)
Theorem calculate_position_size_signal cfg env price :
  (∀ s, calculate_position_size cfg env (- s) price
        = calculate_position_size cfg env s price) ∧
  (sizing_method cfg = "fixed_size"%string
   ∨ sizing_method cfg = "wallet_percentage"%string
   ∨ sizing_method cfg = "wallet_fixed"%string →
   ∀ s1 s2, calculate_position_size cfg env s1 price
            = calculate_position_size cfg env s2 price).
Proof.
  split.
  - intros s. unfold calculate_position_size. by rewrite Qabs_opp_eq.
  - intros Hm s1 s2. unfold calculate_position_size.
    destruct Hm as [-> | [-> | ->]]; reflexivity.
Qed.

Lemma calculate_position_size_signal_witness :
  calculate_position_size (Scenario.config "wallet_fixed")
    (Scenario.exchange 10 1000 2 []) 15000 10
  = calculate_position_size (Scenario.config "wallet_fixed")
      (Scenario.exchange 10 1000 2 []) (-3) 10.
Proof.
  destruct (calculate_position_size_signal (Scenario.config "wallet_fixed")
              (Scenario.exchange 10 1000 2 []) 10) as [_ Hany].
  apply Hany. right. by right.
Defined.

(** X3.  A sizing method that is none of the four known names is sized
    exactly as fixed_ratio. *)
Theorem calculate_position_size_fallback cfg cfg' env signal_size price :
  sizing_method cfg ≠ "fixed_ratio"%string →
  sizing_method cfg ≠ "fixed_size"%string →
  sizing_method cfg ≠ "wallet_percentage"%string →
  sizing_method cfg ≠ "wallet_fixed"%string →
  sizing_method cfg' = "fixed_ratio"%string →
  account_ratio cfg' = account_ratio cfg →
  max_position_size cfg' = max_position_size cfg →
  calculate_position_size cfg env signal_size price
  = calculate_position_size cfg' env signal_size price.
Proof.
  intros H1 H2 H3 H4 Hm Hratio Hmax.
  apply String.eqb_neq in H1, H2, H3, H4.
  unfold calculate_position_size, is_wallet_method.
  rewrite H1, H2, H3, H4, Hm, Hratio, Hmax. reflexivity.
Qed.

Lemma calculate_position_size_fallback_witness :
  calculate_position_size (Scenario.config "kelly")
    (Scenario.exchange 10 1000 2 []) 40 10
  = calculate_position_size (Scenario.config "fixed_ratio")
      (Scenario.exchange 10 1000 2 []) 40 10.
Proof.
  apply (calculate_position_size_fallback (Scenario.config "kelly")
           (Scenario.config "fixed_ratio")); done.
Defined.

(** X4.  At a price of zero the sizing raises for every method, and an
    OPEN for a coin quoted at zero ends with the exception and submits
    nothing. *)
Theorem calculate_position_size_zero_price cfg env coin buy size price :
  price == 0 →
  calculate_position_size cfg env size price = None ∧
  (all_mids env !! coin = Some price →
   execute_market_order cfg env coin buy size "OPEN" = (Raised, [])).
Proof.
  intros Hzero. apply Qeq_bool_iff in Hzero.
  assert (Hnone : ∀ s, calculate_position_size cfg env s price = None).
  { intros s. unfold calculate_position_size, is_wallet_method, Py.fdiv.
    rewrite Hzero.
    destruct (String.eqb_spec (sizing_method cfg) "fixed_ratio") as [-> | _];
      [reflexivity|].
    destruct (String.eqb_spec (sizing_method cfg) "fixed_size") as [-> | _];
      [reflexivity|].
    destruct (String.eqb (sizing_method cfg) "wallet_percentage");
      [reflexivity|].
    destruct (String.eqb (sizing_method cfg) "wallet_fixed"); reflexivity. }
  split; [apply Hnone|].
  intros Hmid. unfold execute_market_order, calculated_size.
  rewrite Hmid. cbn [String.eqb Ascii.eqb Bool.eqb]. by rewrite Hnone.
Qed.

Lemma calculate_position_size_zero_price_witness :
  execute_market_order (Scenario.config "fixed_size")
    (Scenario.exchange 0 1000 2 []) "ETH" true 5 "OPEN" = (Raised, []).
Proof.
  destruct (calculate_position_size_zero_price (Scenario.config "fixed_size")
              (Scenario.exchange 0 1000 2 []) "ETH" true 5 0)
    as [_ Hopen]; [reflexivity|].
  by apply Hopen.
Defined.

(** X5.  With a positive price, wallet_fixed commits exactly the fixed
    amount when that amount lies between the minimum order value and 90%
    of the account value, and wallet_percentage commits exactly its share
    of the account value under the same bounds. *)
Theorem wallet_methods_exact cfg env signal_size price :
  0 < price →
  (sizing_method cfg = "wallet_fixed"%string →
   min_order_value <= wallet_fixed_amount cfg →
   wallet_fixed_amount cfg <= get_account_balance env * 0.9 →
   ∃ q, calculate_position_size cfg env signal_size price = Some q ∧
        q * price == wallet_fixed_amount cfg) ∧
  (sizing_method cfg = "wallet_percentage"%string →
   min_order_value <= get_account_balance env * wallet_percentage cfg →
   get_account_balance env * wallet_percentage cfg
   <= get_account_balance env * 0.9 →
   ∃ q, calculate_position_size cfg env signal_size price = Some q ∧
        q * price == get_account_balance env * wallet_percentage cfg).
Proof.
  intros Hp. split; intros Hm Hmin Hsafe.
  - assert (Hsel : calculate_position_size cfg env signal_size price
                   = floor_then_clamp (get_account_balance env) price
                       (wallet_fixed_amount cfg / price)).
    { unfold calculate_position_size, floor_then_clamp, is_wallet_method.
      rewrite Hm. cbn [String.eqb Ascii.eqb Bool.eqb negb orb].
      rewrite !fdiv_pos by done. unfold Py.min.
      apply ltb_false in Hsafe. by rewrite Hsafe. }
    pose proof (div_mul_cancel (wallet_fixed_amount cfg) price Hp) as Hdiv.
    eexists. split; [|exact Hdiv].
    rewrite Hsel. apply floor_then_clamp_id; by rewrite Hdiv.
  - assert (Hsel : calculate_position_size cfg env signal_size price
                   = floor_then_clamp (get_account_balance env) price
                       (get_account_balance env * wallet_percentage cfg
                        / price)).
    { unfold calculate_position_size, floor_then_clamp, is_wallet_method.
      rewrite Hm. cbn [String.eqb Ascii.eqb Bool.eqb negb orb].
      rewrite !fdiv_pos by done. reflexivity. }
    pose proof (div_mul_cancel
                  (get_account_balance env * wallet_percentage cfg)
                  price Hp) as Hdiv.
    eexists. split; [|exact Hdiv].
    rewrite Hsel. apply floor_then_clamp_id; by rewrite Hdiv.
Qed.

Lemma wallet_methods_exact_witness :
  ∃ q, calculate_position_size (Scenario.config "wallet_percentage")
         (Scenario.exchange 4 1000 2 []) 7 4 = Some q ∧
       q * 4 == 1000 * 0.1.
Proof.
  destruct (wallet_methods_exact (Scenario.config "wallet_percentage")
              (Scenario.exchange 4 1000 2 []) 7 4) as [_ Hpct];
    [reflexivity|].
  apply Hpct; [reflexivity | vm_compute; discriminate..].
Defined.

(** X6.  The simulation printed by test-sizing-methods.py agrees with the
    wallet_percentage sizing whenever the larger of the percentage of the
    balance and the minimum order value stays within 90% of the balance
    (the script has no 90% check). *)
Theorem simulate_agrees cfg env signal_size price :
  0 < price →
  sizing_method cfg = "wallet_percentage"%string →
  min_order_value <= get_account_balance env * 0.9 →
  get_account_balance env * wallet_percentage cfg
  <= get_account_balance env * 0.9 →
  ∃ order_value size q,
    TestSizing.simulate (get_account_balance env) price
                        (wallet_percentage cfg) = Some (order_value, size) ∧
    calculate_position_size cfg env signal_size price = Some q ∧
    size == q ∧ order_value == q * price.
Proof.
  intros Hp Hm Hmin Hsafe.
  unfold TestSizing.simulate, calculate_position_size, is_wallet_method.
  rewrite Hm. cbn [String.eqb Ascii.eqb Bool.eqb negb orb].
  rewrite !fdiv_pos by done. cbn [mbind option_bind].
  set (value := get_account_balance env * wallet_percentage cfg) in *.
  pose proof (div_mul_cancel value price Hp) as Hdiv.
  pose proof (div_mul_cancel min_order_value price Hp) as Hten.
  rewrite (ltb_comp (value / price * price) value
             min_order_value min_order_value) by done.
  unfold min_order_value in *.
  destruct (Py.ltb value 10) eqn:Hfloor; cbn [mbind option_bind];
    [apply ltb_true in Hfloor | apply ltb_false in Hfloor].
  - replace (Py.gtb (10 / price * price) (get_account_balance env * 0.9))
      with false by (symmetry; apply gtb_false; lra).
    do 3 eexists. split; [reflexivity|]. split; [reflexivity|].
    split; [reflexivity | lra].
  - replace (Py.gtb (value / price * price) (get_account_balance env * 0.9))
      with false by (symmetry; apply gtb_false; lra).
    do 3 eexists. split; [reflexivity|]. split; [reflexivity|].
    split; [reflexivity | lra].
Qed.

Lemma simulate_agrees_witness :
  ∃ order_value size q,
    TestSizing.simulate 1000 4 0.1 = Some (order_value, size) ∧
    calculate_position_size (Scenario.config "wallet_percentage")
      (Scenario.exchange 4 1000 2 []) 7 4 = Some q ∧
    size == q.
Proof.
  destruct (simulate_agrees (Scenario.config "wallet_percentage")
              (Scenario.exchange 4 1000 2 []) 7 4)
    as (v & s & q & Hsim & Hq & Hs & _);
    [reflexivity | reflexivity | vm_compute; discriminate..|].
  exists v, s, q. done.
Defined.

End SizingMethods.

(** ** Orders of the trade executor: shape, guards and direction *)

Section ExecutorOrders.

Import TradeExecutor.
Local Open Scope Q_scope.

(** Everything known about an order that [execute_market_order] submits. *)
Lemma execute_orders cfg env coin buy size action_type o :
  o ∈ snd (execute_market_order cfg env coin buy size action_type) →
  ∃ price calculated,
    all_mids env !! coin = Some price ∧
    calculated_size cfg env action_type size price = Some calculated ∧
    execute_market_order cfg env coin buy size action_type
    = (parse_result (market_open env o) (sz o) (sz o * price), [o]) ∧
    o = {| name := coin; is_buy := buy;
           sz := Py.round calculated (get_asset_precision env coin);
           slippage := 0.02 |} ∧
    (action_type ≠ "CLOSE"%string →
     min_order_value <= sz o * price ∧
     (buy = true → sz o * price <= get_account_balance env)).
Proof.
  unfold execute_market_order.
  destruct (all_mids env !! coin) as [price|] eqn:Hmid;
    [|intros H; by apply elem_of_nil in H].
  destruct (calculated_size cfg env action_type size price) as [c|] eqn:Hc;
    [|intros H; by apply elem_of_nil in H].
  destruct (String.eqb_spec action_type "CLOSE") as [Heq | Hne];
    cbn [negb andb].
  - intros H. apply list_elem_of_singleton in H as ->.
    exists price, c. by split_and!.
  - destruct (Py.ltb _ min_order_value) eqn:Hmin;
      [intros H; by apply elem_of_nil in H|].
    apply ltb_false in Hmin.
    destruct buy; cbn [andb].
    + destruct (Py.ltb (get_account_balance env) _) eqn:Hbal;
        [intros H; by apply elem_of_nil in H|].
      apply ltb_false in Hbal.
      intros H. apply list_elem_of_singleton in H as ->.
      exists price, c. by split_and!.
    + intros H. apply list_elem_of_singleton in H as ->.
      exists price, c. by split_and!.
Qed.

(** The order of [copy_trade], if any, is one of [execute_market_order]
    for the magnitude of the signal. *)
Lemma copy_trade_orders_execute cfg env coin signal_size action_type o :
  o ∈ snd (copy_trade cfg env coin signal_size action_type) →
  copy_trade cfg env coin signal_size action_type
  = execute_market_order cfg env coin (is_buy o) (Qabs signal_size)
                         action_type.
Proof.
  unfold copy_trade.
  repeat match goal with
  | |- context [if String.eqb action_type ?a then _ else _] =>
      destruct (String.eqb action_type a)
  | |- context [match open_position env coin with _ => _ end] =>
      destruct (open_position env coin)
  end;
  intros H; try (by apply elem_of_nil in H);
  destruct (execute_orders _ _ _ _ _ _ _ H) as (? & ? & _ & _ & _ & -> & _);
  reflexivity.
Qed.

(** X7.  [copy_trade] submits at most one order; an order it submits is
    for the signal's coin, with a slippage of 2%, and the coin has a mid
    price: nothing is submitted for a coin that is not quoted. *)
Theorem copy_trade_orders cfg env coin signal_size action_type :
  (length (snd (copy_trade cfg env coin signal_size action_type)) <= 1)%nat ∧
  (∀ o, o ∈ snd (copy_trade cfg env coin signal_size action_type) →
        name o = coin ∧ slippage o = 0.02 ∧
        is_Some (all_mids env !! coin)) ∧
  (all_mids env !! coin = None →
   snd (copy_trade cfg env coin signal_size action_type) = []).
Proof.
  assert (Hshape : ∀ o,
    o ∈ snd (copy_trade cfg env coin signal_size action_type) →
    snd (copy_trade cfg env coin signal_size action_type) = [o] ∧
    name o = coin ∧ slippage o = 0.02 ∧ is_Some (all_mids env !! coin)).
  { intros o Ho. pose proof Ho as Hexec.
    rewrite (copy_trade_orders_execute _ _ _ _ _ _ Ho) in Hexec |- *.
    destruct (execute_orders _ _ _ _ _ _ _ Hexec)
      as (price & c & Hmid & _ & -> & Ho' & _).
    rewrite Hmid. split; [done|]. rewrite Ho'. cbn. by eauto. }
  split; [|split].
  - destruct (snd (copy_trade cfg env coin signal_size action_type))
      as [|o rest] eqn:E; [cbn; lia|].
    destruct (Hshape o) as [Hone _]; [by left|].
    injection Hone as ->. cbn. lia.
  - intros o Ho. by destruct (Hshape o Ho) as (_ & ? & ? & ?).
  - intros Hmid.
    destruct (snd (copy_trade cfg env coin signal_size action_type))
      as [|o rest] eqn:E; [done|].
    destruct (Hshape o) as (_ & _ & _ & [price Hsome]); [by left|].
    congruence.
Qed.

Lemma copy_trade_orders_witness :
  snd (copy_trade (Scenario.config "fixed_ratio")
         (Scenario.exchange 10 1000 2 [Scenario.eth 50])
         "BTC" 100 "INCREASE") = [].
Proof.
  apply (copy_trade_orders (Scenario.config "fixed_ratio")
           (Scenario.exchange 10 1000 2 [Scenario.eth 50])
           "BTC" 100 "INCREASE").
  reflexivity.
Defined.

(** X8.  An order submitted for an action other than CLOSE is worth at
    least the minimum order value at the mid price, and when it is a buy
    the account value covers it. *)
Theorem copy_trade_order_guards cfg env coin signal_size action_type o price :
  o ∈ snd (copy_trade cfg env coin signal_size action_type) →
  action_type ≠ "CLOSE"%string →
  all_mids env !! coin = Some price →
  min_order_value <= sz o * price ∧
  (is_buy o = true → sz o * price <= get_account_balance env).
Proof.
  intros Ho Hne Hmid. pose proof Ho as Hexec.
  rewrite (copy_trade_orders_execute _ _ _ _ _ _ Ho) in Hexec.
  destruct (execute_orders _ _ _ _ _ _ _ Hexec)
    as (price' & c & Hmid' & _ & _ & _ & Hguard).
  rewrite Hmid in Hmid'. injection Hmid' as <-.
  by apply Hguard.
Qed.

Lemma copy_trade_order_guards_witness :
  ∃ o, snd (copy_trade (Scenario.config "fixed_ratio")
              (Scenario.exchange 10 1000 2 []) "ETH" 100 "OPEN") = [o] ∧
       min_order_value <= sz o * 10 ∧ sz o * 10 <= 1000.
Proof.
  eexists. split; [vm_compute; reflexivity|].
  destruct (copy_trade_order_guards (Scenario.config "fixed_ratio")
              (Scenario.exchange 10 1000 2 []) "ETH" 100 "OPEN"
              {| name := "ETH"; is_buy := true; sz := 1.00;
                 slippage := 0.02 |} 10) as [Hmin Hbal].
  - vm_compute. by left.
  - discriminate.
  - reflexivity.
  - split; [exact Hmin|]. by apply Hbal.
Defined.

(** X9.  The side of the order submitted by [copy_trade]: OPEN buys
    exactly for a positive signal; INCREASE follows the sign of the
    existing nonzero position and falls back to the signal's sign without
    one; DECREASE and CLOSE are only submitted against a nonzero position
    and buy exactly when it is short. *)
Theorem copy_trade_direction cfg env coin signal_size action_type o :
  o ∈ snd (copy_trade cfg env coin signal_size action_type) →
  (action_type = "OPEN"%string → is_buy o = Py.gtb signal_size 0) ∧
  (action_type = "INCREASE"%string →
   is_buy o = match open_position env coin with
              | Some my_szi => Py.gtb my_szi 0
              | None => Py.gtb signal_size 0
              end) ∧
  (action_type = "DECREASE"%string ∨ action_type = "CLOSE"%string →
   ∃ my_szi, open_position env coin = Some my_szi ∧
             is_buy o = Py.ltb my_szi 0).
Proof.
  assert (Hside : ∀ b a,
    o ∈ snd (execute_market_order cfg env coin b (Qabs signal_size) a) →
    is_buy o = b).
  { intros b a Ho.
    by destruct (execute_orders _ _ _ _ _ _ _ Ho)
      as (? & ? & _ & _ & _ & -> & _). }
  intros Ho. split_and!.
  - intros ->. unfold copy_trade in Ho.
    cbn [String.eqb Ascii.eqb Bool.eqb] in Ho. by apply Hside in Ho.
  - intros ->. unfold copy_trade in Ho.
    cbn [String.eqb Ascii.eqb Bool.eqb] in Ho. by apply Hside in Ho.
  - intros [-> | ->]; unfold copy_trade in Ho;
      cbn [String.eqb Ascii.eqb Bool.eqb] in Ho;
      (destruct (open_position env coin) as [my_szi|];
        [|by apply elem_of_nil in Ho]);
      exists my_szi; (split; [done|]); by apply Hside in Ho.
Qed.

Lemma copy_trade_direction_witness :
  ∃ o, snd (copy_trade (Scenario.config "fixed_ratio")
              (Scenario.exchange 10 1000 2 [Scenario.eth (-50)])
              "ETH" 100 "INCREASE") = [o] ∧
       is_buy o = false.
Proof.
  eexists. split; [vm_compute; reflexivity|].
  destruct (copy_trade_direction (Scenario.config "fixed_ratio")
              (Scenario.exchange 10 1000 2 [Scenario.eth (-50)])
              "ETH" 100 "INCREASE"
              {| name := "ETH"; is_buy := false; sz := 10.00;
                 slippage := 0.02 |}) as (_ & Hinc & _).
  - vm_compute. by left.
  - by rewrite Hinc.
Defined.

Lemma execute_success cfg env coin buy size action_type :
  success (fst (execute_market_order cfg env coin buy size action_type))
  = true →
  ∃ o, snd (execute_market_order cfg env coin buy size action_type) = [o].
Proof.
  unfold execute_market_order.
  destruct (all_mids env !! coin); [|done].
  destruct (calculated_size cfg env action_type size _); [|done].
  destruct (_ && Py.ltb _ min_order_value); [done|].
  destruct (_ && Py.ltb (get_account_balance env) _); [done|].
  intros _. by eexists.
Qed.

Lemma copy_trade_success cfg env coin signal_size action_type :
  success (fst (copy_trade cfg env coin signal_size action_type)) = true →
  ∃ o, snd (copy_trade cfg env coin signal_size action_type) = [o].
Proof.
  unfold copy_trade.
  repeat match goal with
  | |- context [if String.eqb action_type ?a then _ else _] =>
      destruct (String.eqb action_type a)
  | |- context [match open_position env coin with _ => _ end] =>
      destruct (open_position env coin)
  end; try done; apply execute_success.
Qed.

(** X10.  The command line of the trade executor: a dry run never submits
    an order; a real run exits with 0 only when exactly one order was
    submitted and filled; every skipped outcome (below the minimum, no
    position to close) exits with 1. *)
Theorem main_exit_code cfg env coin size action_type :
  snd (TradeMain.main cfg env coin size action_type true) = [] ∧
  (snd (fst (TradeMain.main cfg env coin size action_type false)) = 0%Z →
   ∃ o r, snd (TradeMain.main cfg env coin size action_type false) = [o] ∧
          fst (fst (TradeMain.main cfg env coin size action_type false))
          = TradeMain.Outcome r ∧
          success r = true) ∧
  (∀ r, fst (fst (TradeMain.main cfg env coin size action_type false))
        = TradeMain.Outcome r →
        skipped r = true →
        snd (fst (TradeMain.main cfg env coin size action_type false))
        = 1%Z).
Proof.
  unfold TradeMain.main.
  destruct (negb (existsb (String.eqb action_type) TradeMain.choices)).
  { split_and!; [done | done | done]. }
  split_and!.
  - by destruct (TradeMain.dry_run cfg env coin size action_type).
  - pose proof (copy_trade_success cfg env coin size action_type) as Hs.
    destruct (copy_trade cfg env coin size action_type) as [r orders].
    cbn in *. destruct (success r) eqn:Hsucc; [|done].
    intros _. destruct Hs as [o ->]; [done|]. by exists o, r.
  - intros r.
    destruct (copy_trade cfg env coin size action_type) as [r' orders].
    cbn. intros [= <-] Hskip. by destruct r'.
Qed.

Lemma main_exit_code_witness :
  snd (fst (TradeMain.main (Scenario.config "fixed_ratio")
              (Scenario.exchange 10 1000 2 []) "ETH" 50 "CLOSE" false))
  = 1%Z.
Proof.
  destruct (main_exit_code (Scenario.config "fixed_ratio")
              (Scenario.exchange 10 1000 2 []) "ETH" 50 "CLOSE")
    as (_ & _ & Hskip).
  by apply (Hskip NoPositionToClose).
Defined.

(** X11.  A dry run of an OPEN predicts the real run: when it reports
    that the order would not execute, the real run is skipped as below
    the minimum; when it reports that it would, and the order is a sell
    or the account value covers it, the real run submits exactly the
    reported size. *)
Theorem dry_run_predicts_open cfg env coin size r :
  TradeMain.dry_run cfg env coin size "OPEN" = Some r →
  (TradeMain.would_execute r = false →
   copy_trade cfg env coin size "OPEN"
   = (BelowMinimum (TradeMain.dry_order_value r), [])) ∧
  (TradeMain.would_execute r = true →
   Py.gtb size 0 = false
   ∨ TradeMain.dry_order_value r <= get_account_balance env →
   snd (copy_trade cfg env coin size "OPEN")
   = [{| name := coin; is_buy := Py.gtb size 0;
         sz := TradeMain.dry_calculated_size r; slippage := 0.02 |}]).
Proof.
  unfold TradeMain.dry_run, copy_trade, execute_market_order,
    calculated_size.
  cbn [String.eqb Ascii.eqb Bool.eqb negb andb].
  destruct (all_mids env !! coin) as [price|]; [|done].
  cbn [mbind option_bind].
  assert (Habs : calculate_position_size cfg env (Qabs size) price
                 = calculate_position_size cfg env size price).
  { unfold calculate_position_size. by rewrite Qabs_idem. }
  rewrite Habs.
  destruct (calculate_position_size cfg env size price) as [c|]; [|done].
  cbn [mbind option_bind]. intros [= <-]. cbn. unfold Py.geb. split.
  - intros H. apply negb_false_iff in H. by rewrite H.
  - intros H Hcover. apply negb_true_iff in H. rewrite H.
    destruct Hcover as [-> | Hbal]; [done|].
    apply ltb_false in Hbal. rewrite Hbal. by rewrite andb_false_r.
Qed.

Lemma dry_run_predicts_open_witness :
  ∃ r, TradeMain.dry_run (Scenario.config "fixed_ratio")
         (Scenario.exchange 10 1000 2 []) "ETH" 100 "OPEN" = Some r ∧
       snd (copy_trade (Scenario.config "fixed_ratio")
              (Scenario.exchange 10 1000 2 []) "ETH" 100 "OPEN")
       = [{| name := "ETH"; is_buy := true;
             sz := TradeMain.dry_calculated_size r; slippage := 0.02 |}].
Proof.
  eexists. split; [reflexivity|].
  eapply (dry_run_predicts_open (Scenario.config "fixed_ratio")
            (Scenario.exchange 10 1000 2 []) "ETH" 100).
  - reflexivity.
  - reflexivity.
  - right. vm_compute. discriminate.
Defined.

Lemma round_half_even_close q :
  - (1 # 2) <= inject_Z (Py.round_half_even q) - q ∧
  inject_Z (Py.round_half_even q) - q <= 1 # 2.
Proof.
  pose proof (Qfloor_le q) as Hlo. pose proof (Qlt_floor q) as Hhi.
  assert (Hnext : ∀ k, inject_Z (k + 1) == inject_Z k + 1)
    by (intros k; by rewrite inject_Z_plus).
  rewrite Hnext in Hhi. unfold Py.round_half_even.
  destruct (Py.ltb (q - inject_Z (Qfloor q)) (1 # 2)) eqn:Hdown;
    [apply ltb_true in Hdown; split; lra | apply ltb_false in Hdown].
  destruct (Py.ltb (1 # 2) (q - inject_Z (Qfloor q))) eqn:Hup;
    [apply ltb_true in Hup; rewrite Hnext; split; lra
    | apply ltb_false in Hup].
  destruct (Z.even (Qfloor q)); rewrite ?Hnext; split; lra.
Qed.

Lemma round_half_even_nonneg q : 0 <= q → (0 <= Py.round_half_even q)%Z.
Proof.
  intros Hq. assert (Hfloor : (0 <= Qfloor q)%Z).
  { replace 0%Z with (Qfloor 0) by reflexivity. by apply Qfloor_resp_le. }
  unfold Py.round_half_even.
  destruct (Py.ltb _ _); [done|]. destruct (Py.ltb _ _); [lia|].
  destruct (Z.even _); lia.
Qed.

(** Rounding to [n] decimals moves a size by at most half a unit of the
    last decimal, and keeps a size that is not negative so. *)
Lemma round_close x n :
  Qabs (Py.round x n - x) <= (1 # 2) / inject_Z (10 ^ Z.of_nat n) ∧
  (0 <= x → 0 <= Py.round x n).
Proof.
  unfold Py.round. pose proof (scale_pos n) as Hs.
  set (s := inject_Z (10 ^ Z.of_nat n)) in *.
  destruct (round_half_even_close (x * s)) as [Hlo Hhi].
  split.
  - assert (Hup : inject_Z (Py.round_half_even (x * s)) / s - x
                  <= (1 # 2) / s).
    { apply Qle_shift_div_l; [done|].
      assert (E : (inject_Z (Py.round_half_even (x * s)) / s - x) * s
                  == inject_Z (Py.round_half_even (x * s)) - x * s)
        by (field; lra).
      by rewrite E. }
    assert (Hdown : x - inject_Z (Py.round_half_even (x * s)) / s
                    <= (1 # 2) / s).
    { apply Qle_shift_div_l; [done|].
      assert (E : (x - inject_Z (Py.round_half_even (x * s)) / s) * s
                  == x * s - inject_Z (Py.round_half_even (x * s)))
        by (field; lra).
      rewrite E. lra. }
    remember (inject_Z (Py.round_half_even (x * s)) / s) as y eqn:Ey.
    remember ((1 # 2) / s) as bound eqn:Eb. clear Ey Eb.
    apply Qabs_Qle_condition. split; lra.
  - intros Hx. apply Qle_shift_div_l; [done|].
    assert (Hxs : 0 <= x * s) by (apply Qmult_le_0_compat; lra).
    apply round_half_even_nonneg in Hxs.
    rewrite Qmult_0_l. replace 0 with (inject_Z 0) by reflexivity.
    by rewrite <- Zle_Qle.
Qed.

(** X27.  An OPEN order is sized by the sizing engine: its quantity is
    the result of [calculate_position_size] on the signal at the coin's mid
    price, rounded to the instrument's precision. *)
Theorem open_order_sized cfg env coin signal_size o :
  o ∈ snd (copy_trade cfg env coin signal_size "OPEN") →
  ∃ price q,
    all_mids env !! coin = Some price ∧
    calculate_position_size cfg env signal_size price = Some q ∧
    sz o = Py.round q (get_asset_precision env coin).
Proof.
  intros Ho. pose proof Ho as Hexec.
  rewrite (copy_trade_orders_execute _ _ _ _ _ _ Ho) in Hexec.
  destruct (execute_orders _ _ _ _ _ _ _ Hexec)
    as (price & c & Hmid & Hc & _ & -> & _).
  unfold calculated_size in Hc. cbn [String.eqb Ascii.eqb Bool.eqb] in Hc.
  exists price, c. split_and!; [done | | done].
  rewrite <- Hc. unfold calculate_position_size. by rewrite Qabs_idem.
Qed.

Lemma open_order_sized_witness :
  ∃ price q,
    all_mids (Scenario.exchange 10 1000 2 []) !! "ETH"%string = Some price ∧
    calculate_position_size (Scenario.config "fixed_ratio")
      (Scenario.exchange 10 1000 2 []) 100 price = Some q ∧
    1.00 = Py.round q 2.
Proof.
  apply (open_order_sized (Scenario.config "fixed_ratio")
           (Scenario.exchange 10 1000 2 []) "ETH" 100
           {| name := "ETH"; is_buy := true; sz := 1.00;
              slippage := 0.02 |}).
  vm_compute. by left.
Defined.

(** X12.  The quantity of a CLOSE order is not negative and differs from
    |signalSize| by at most half a unit of the instrument's last size
    decimal. *)
Theorem close_order_rounding cfg env coin signal_size o :
  o ∈ snd (copy_trade cfg env coin signal_size "CLOSE") →
  0 <= sz o ∧
  Qabs (sz o - Qabs signal_size)
  <= (1 # 2) / inject_Z (10 ^ Z.of_nat (get_asset_precision env coin)).
Proof.
  intros Ho. pose proof Ho as Hexec.
  rewrite (copy_trade_orders_execute _ _ _ _ _ _ Ho) in Hexec.
  destruct (execute_orders _ _ _ _ _ _ _ Hexec)
    as (price & c & _ & Hc & _ & -> & _).
  unfold calculated_size in Hc. cbn [String.eqb Ascii.eqb Bool.eqb] in Hc.
  injection Hc as <-. rewrite Qabs_idem. cbn [sz].
  destruct (round_close (Qabs signal_size) (get_asset_precision env coin))
    as [Hclose Hnn].
  split; [apply Hnn, Qabs_nonneg | exact Hclose].
Qed.

Lemma close_order_rounding_witness :
  ∃ o, snd (copy_trade (Scenario.config "fixed_ratio")
              (Scenario.exchange 10 1000 0 [Scenario.eth 20])
              "ETH" (-12.75) "CLOSE") = [o] ∧
       Qabs (sz o - Qabs (-12.75)) <= 1 # 2.
Proof.
  eexists. split; [vm_compute; reflexivity|].
  apply (close_order_rounding (Scenario.config "fixed_ratio")
           (Scenario.exchange 10 1000 0 [Scenario.eth 20])
           "ETH" (-12.75)
           {| name := "ETH"; is_buy := false; sz := 13;
              slippage := 0.02 |}).
  vm_compute. by left.
Defined.

(** X13.  The size precision of a coin is that of its first entry in the
    instrument universe, and 6 when the universe has no entry for it. *)
Theorem get_asset_precision_lookup env coin :
  ((∀ a, a ∈ universe env → fst a ≠ coin) →
   get_asset_precision env coin = 6%nat) ∧
  (∀ before decimals after,
     universe env = before ++ (coin, decimals) :: after →
     (∀ a, a ∈ before → fst a ≠ coin) →
     get_asset_precision env coin = decimals).
Proof.
  unfold get_asset_precision. split.
  - induction (universe env) as [|a l IH]; intros Hall; [done|].
    cbn. rewrite eqb_neq_false by (apply Hall; by left).
    apply IH. intros b Hb. apply Hall. by right.
  - intros before decimals after -> Hall.
    induction before as [|a l IH]; cbn.
    + by rewrite String.eqb_refl.
    + rewrite eqb_neq_false by (apply Hall; by left).
      apply IH. intros b Hb. apply Hall. by right.
Qed.

Lemma get_asset_precision_lookup_witness :
  get_asset_precision (Scenario.exchange 10 1000 3 []) "BTC" = 6%nat ∧
  get_asset_precision (Scenario.exchange 10 1000 3 []) "ETH" = 3%nat.
Proof.
  destruct (get_asset_precision_lookup (Scenario.exchange 10 1000 3 [])
              "BTC") as [Hnone _].
  destruct (get_asset_precision_lookup (Scenario.exchange 10 1000 3 [])
              "ETH") as [_ Hsome].
  split.
  - apply Hnone. intros a Ha. apply list_elem_of_singleton in Ha as ->.
    discriminate.
  - apply (Hsome [] 3%nat []); [reflexivity|].
    intros a Ha. by apply elem_of_nil in Ha.
Defined.

End ExecutorOrders.

(** ** The limiter: decisions, recording and statistics *)

Section LimiterBehaviour.

Import PositionLimiter LimiterStats.
Local Open Scope Q_scope.

(** The cooldown test, on microseconds. *)
Lemma cooldown_test elapsed seconds :
  Py.ltb (total_seconds elapsed) (inject_Z seconds) = true
  ↔ (elapsed < seconds * 1000000)%Z.
Proof.
  rewrite ltb_true. unfold total_seconds.
  assert (Hscale : (0 : Q) < 1000000) by reflexivity.
  assert (E : inject_Z (seconds * 1000000) == inject_Z seconds * 1000000)
    by (by rewrite inject_Z_mult).
  rewrite Zlt_Qlt, E. split; intros H.
  - apply (Qmult_lt_r _ _ 1000000 Hscale) in H.
    assert (E' : inject_Z elapsed / 1000000 * 1000000 == inject_Z elapsed)
      by field.
    by rewrite E' in H.
  - by apply Qlt_shift_div_r.
Qed.

(** The three checks of [should_allow_trade], in order. *)
Lemma should_allow_trade_fst cfg st now coin trade_value balance :
  fst (should_allow_trade cfg st now coin trade_value balance)
  = negb (match last_trade_time st !! coin with
          | Some last =>
              Py.ltb (total_seconds (now - last))
                     (inject_Z (min_time_between_trades cfg))
          | None => false
          end)
    && negb (match trade_history st !! coin with
             | Some trades =>
                 (max_trades_per_coin_per_hour cfg
                  <=? Z.of_nat (length (recent_trades now trades)))%Z
             | None => false
             end)
    && position_check cfg st coin trade_value balance.
Proof.
  unfold should_allow_trade.
  destruct (match last_trade_time st !! coin with
            | Some _ => _ | None => _ end); [done|].
  destruct (trade_history st !! coin) as [trades|]; [|done].
  by destruct (_ <=? _)%Z.
Qed.

(** X14.  [should_allow_trade] returns true exactly when the three checks
    pass: the last trade of the coin, if any, is at least the minimum
    number of seconds old; the coin's trades of the last hour, if it has a
    history, are fewer than the hourly maximum; and the tracked position
    value plus the trade value is at most the allowed share of the account
    balance (equality is allowed). *)
Theorem should_allow_trade_decision cfg st now coin trade_value balance :
  fst (should_allow_trade cfg st now coin trade_value balance) = true ↔
  (∀ last, last_trade_time st !! coin = Some last →
           (min_time_between_trades cfg * 1000000 <= now - last)%Z) ∧
  (∀ trades, trade_history st !! coin = Some trades →
             (Z.of_nat (length (recent_trades now trades))
              < max_trades_per_coin_per_hour cfg)%Z) ∧
  default 0 (position_values st !! coin) + trade_value
  <= balance * max_position_percent cfg.
Proof.
  rewrite should_allow_trade_fst, !andb_true_iff, !negb_true_iff.
  unfold position_check. rewrite negb_true_iff, gtb_false.
  assert (Hcool : ∀ last,
    Py.ltb (total_seconds (now - last))
           (inject_Z (min_time_between_trades cfg)) = false
    ↔ (min_time_between_trades cfg * 1000000 <= now - last)%Z).
  { intros last. pose proof (cooldown_test (now - last)
                               (min_time_between_trades cfg)) as Ht.
    destruct (Py.ltb _ _); split; intros H; try done.
    - assert (now - last < min_time_between_trades cfg * 1000000)%Z
        by (by apply Ht). lia.
    - destruct (Z_lt_le_dec (now - last)
                  (min_time_between_trades cfg * 1000000)) as [Hlt|]; [|done].
      apply Ht in Hlt. done. }
  split.
  - intros [[Hsoon Hcap] Hfit]. split_and!; [| |done].
    + intros last Hlast. rewrite Hlast in Hsoon. by apply Hcool.
    + intros trades Hhist. rewrite Hhist in Hcap.
      by apply Z.leb_gt in Hcap.
  - intros (Hsoon & Hcap & Hfit). split_and!; [| |done].
    + destruct (last_trade_time st !! coin) as [last|]; [|done].
      by apply Hcool, Hsoon.
    + destruct (trade_history st !! coin) as [trades|]; [|done].
      by apply Z.leb_gt, Hcap.
Qed.

Lemma should_allow_trade_decision_witness :
  fst (should_allow_trade Scenario.limits PositionLimiter.empty 0
         "ETH" 250 1000) = true.
Proof.
  apply (should_allow_trade_decision Scenario.limits PositionLimiter.empty
           0 "ETH" 250 1000).
  split_and!; [done | done |]. vm_compute. discriminate.
Defined.

(** X15.  Cooldown: after a trade of a coin has been recorded, a request
    for that coin made less than the minimum number of seconds later is
    refused, and the limiter is left as it is. *)
Theorem cooldown_after_record cfg st recorded coin value now trade_value
    balance :
  (now - recorded < min_time_between_trades cfg * 1000000)%Z →
  should_allow_trade cfg (record_trade st recorded coin value) now coin
                     trade_value balance
  = (false, record_trade st recorded coin value).
Proof.
  intros Hsoon. unfold should_allow_trade.
  cbn [last_trade_time record_trade]. rewrite lookup_insert_eq.
  apply cooldown_test in Hsoon. by rewrite Hsoon.
Qed.

Lemma cooldown_after_record_witness :
  fst (should_allow_trade Scenario.limits Scenario.one_trade 20000000
         "ETH" 10 1000) = false.
Proof.
  unfold Scenario.one_trade.
  by rewrite (cooldown_after_record Scenario.limits PositionLimiter.empty
                0 "ETH" 10 20000000 10 1000).
Defined.

Lemma recent_trades_app now (l1 l2 : list Z) :
  recent_trades now (l1 ++ l2) = recent_trades now l1 ++ recent_trades now l2.
Proof. unfold recent_trades. apply List.filter_app. Qed.

(** Pruning at a later time makes an earlier pruning redundant. *)
Lemma recent_trades_recent now now' (trades : list Z) :
  (now <= now')%Z →
  recent_trades now' (recent_trades now trades) = recent_trades now' trades.
Proof.
  intros Hle. unfold recent_trades.
  induction trades as [|t trades IH]; [done|]. cbn.
  destruct (now - one_hour <? t)%Z eqn:Hold; cbn; rewrite IH; [done|].
  apply Z.ltb_ge in Hold.
  replace (now' - one_hour <? t)%Z with false; [done|].
  symmetry. apply Z.ltb_ge. lia.
Qed.

(** The state after a series of recorded trades of one coin. *)
Lemma record_all_coin st coin trades :
  default [] (trade_history (record_all st coin trades) !! coin)
  = default [] (trade_history st !! coin) ++ List.map fst trades ∧
  default 0 (position_values (record_all st coin trades) !! coin)
  == default 0 (position_values st !! coin)
     + fold_right Qplus 0 (List.map snd trades) ∧
  (trades ≠ [] →
   is_Some (trade_history (record_all st coin trades) !! coin) ∧
   last_trade_time (record_all st coin trades) !! coin
   = last (List.map fst trades)).
Proof.
  revert st. induction trades as [|[t v] trades IH]; intros st.
  - cbn. rewrite app_nil_r. split_and!; [done | ring | done].
  - destruct (IH (record_trade st t coin v)) as (Hhist & Hpos & Hlast).
    change (record_all st coin ((t, v) :: trades))
      with (record_all (record_trade st t coin v) coin trades).
    cbn [record_trade trade_history position_values last_trade_time]
      in Hhist, Hpos.
    rewrite lookup_insert_eq in Hhist. rewrite lookup_insert_eq in Hpos.
    cbn [default from_option id] in Hhist, Hpos.
    split_and!.
    + rewrite Hhist, <- app_assoc. reflexivity.
    + rewrite Hpos. cbn [List.map fold_right snd]. ring.
    + intros _. destruct trades as [|tv trades].
      * cbn. rewrite !lookup_insert_eq. by eauto.
      * destruct Hlast as [Hsome Hl]; [done|]. split; [done|].
        rewrite Hl. reflexivity.
Qed.

Lemma record_all_other st coin trades c :
  c ≠ coin →
  trade_history (record_all st coin trades) !! c = trade_history st !! c ∧
  last_trade_time (record_all st coin trades) !! c
  = last_trade_time st !! c ∧
  position_values (record_all st coin trades) !! c
  = position_values st !! c.
Proof.
  intros Hc. revert st. induction trades as [|[t v] trades IH]; intros st.
  - done.
  - change (record_all st coin ((t, v) :: trades))
      with (record_all (record_trade st t coin v) coin trades).
    destruct (IH (record_trade st t coin v)) as (-> & -> & ->).
    cbn. by rewrite !lookup_insert_ne.
Qed.

(** X16.  Frequency: once at least the hourly maximum of trades of a coin
    have been recorded within the last hour, the next request for that
    coin is refused. *)
Theorem frequency_cap_after_records cfg st coin trades now trade_value
    balance :
  trades ≠ [] →
  (max_trades_per_coin_per_hour cfg <= Z.of_nat (length trades))%Z →
  (∀ t, t ∈ List.map fst trades → (now - one_hour < t)%Z) →
  fst (should_allow_trade cfg (record_all st coin trades) now coin
         trade_value balance) = false.
Proof.
  intros Hne Hmax Hrecent. rewrite should_allow_trade_fst.
  destruct (record_all_coin st coin trades) as (Hhist & _ & Hsome).
  destruct Hsome as [[h Hh] _]; [done|].
  rewrite Hh in Hhist |- *. cbn [default from_option id] in Hhist. subst h.
  rewrite recent_trades_app, (recent_trades_all now (List.map fst trades))
    by done.
  replace (max_trades_per_coin_per_hour cfg <=? _)%Z with true.
  - cbn. by rewrite andb_false_r.
  - symmetry. apply Z.leb_le.
    rewrite length_app, length_map. lia.
Qed.

Lemma frequency_cap_after_records_witness :
  fst (should_allow_trade Scenario.limits
         (record_all PositionLimiter.empty "ETH"
            [(0%Z, 10); (60000000%Z, 10); (120000000%Z, 10)])
         180000000 "ETH" 10 1000) = false.
Proof.
  apply (frequency_cap_after_records Scenario.limits PositionLimiter.empty
           "ETH" [(0%Z, 10); (60000000%Z, 10); (120000000%Z, 10)]
           180000000 10 1000).
  - discriminate.
  - reflexivity.
  - intros t Ht. cbn in Ht.
    repeat (apply elem_of_cons in Ht as [-> | Ht]; [reflexivity|]).
    by apply elem_of_nil in Ht.
Defined.

(** X17.  The pruning done by a call cannot be observed by later calls:
    whatever was asked at a time [now], a request at a time not before it
    gets the answer it would have got without the earlier call. *)
Theorem pruning_unobservable cfg st now coin trade_value balance
    now' coin' trade_value' balance' :
  (now <= now')%Z →
  fst (should_allow_trade cfg
         (snd (should_allow_trade cfg st now coin trade_value balance))
         now' coin' trade_value' balance')
  = fst (should_allow_trade cfg st now' coin' trade_value' balance').
Proof.
  intros Hle. rewrite !should_allow_trade_fst.
  destruct (should_allow_trade_frame cfg st now coin trade_value balance)
    as (Hlast & Hpos & Hother & Hcoin).
  cbn zeta in Hlast, Hpos, Hother, Hcoin.
  unfold position_check. rewrite Hlast, Hpos.
  f_equal. f_equal. f_equal.
  destruct (decide (coin' = coin)) as [-> | Hne].
  - destruct Hcoin as [-> | ->]; [done|].
    destruct (trade_history st !! coin) as [trades|]; [|done].
    cbn. by rewrite recent_trades_recent.
  - by rewrite Hother.
Qed.

Lemma pruning_unobservable_witness :
  fst (should_allow_trade Scenario.limits
         (snd (should_allow_trade Scenario.limits Scenario.one_trade
                 Scenario.two_hours "ETH" 10 1000))
         (Scenario.two_hours + 1) "ETH" 10 1000)
  = fst (should_allow_trade Scenario.limits Scenario.one_trade
           (Scenario.two_hours + 1) "ETH" 10 1000).
Proof.
  apply (pruning_unobservable Scenario.limits Scenario.one_trade
           Scenario.two_hours "ETH" 10 1000 (Scenario.two_hours + 1)).
  vm_compute. discriminate.
Defined.

(** X18.  After a series of trades of one coin has been recorded, the
    coin's history is the old one followed by the times of the trades, its
    last trade time is the time of the last one, and its tracked position
    value is the old value plus the sum of the trade values (nothing is
    netted); the other coins are untouched. *)
Theorem record_all_state st coin trades :
  trades ≠ [] →
  trade_history (record_all st coin trades) !! coin
  = Some (default [] (trade_history st !! coin) ++ List.map fst trades) ∧
  last_trade_time (record_all st coin trades) !! coin
  = last (List.map fst trades) ∧
  (∃ total, position_values (record_all st coin trades) !! coin = Some total
            ∧ total == default 0 (position_values st !! coin)
                       + fold_right Qplus 0 (List.map snd trades)) ∧
  (∀ c, c ≠ coin →
        trade_history (record_all st coin trades) !! c
        = trade_history st !! c ∧
        last_trade_time (record_all st coin trades) !! c
        = last_trade_time st !! c ∧
        position_values (record_all st coin trades) !! c
        = position_values st !! c).
Proof.
  intros Hne.
  destruct (record_all_coin st coin trades) as (Hhist & Hpos & Hsome).
  destruct Hsome as [[h Hh] Hlast]; [done|].
  rewrite Hh in Hhist |- *. cbn [default from_option id] in Hhist.
  split_and!; [by rewrite Hhist | done | | by apply record_all_other].
  assert (Htracked : is_Some
            (position_values (record_all st coin trades) !! coin)).
  { clear -Hne. revert st.
    induction trades as [|[t v] [|tv trades] IH]; intros st; [done| |].
    - cbn. rewrite lookup_insert_eq. by eauto.
    - change (record_all st coin ((t, v) :: tv :: trades))
        with (record_all (record_trade st t coin v) coin (tv :: trades)).
      by apply IH. }
  destruct Htracked as [total Htotal]. exists total.
  split; [done|]. by rewrite Htotal in Hpos.
Qed.

Lemma record_all_state_witness :
  ∃ total, position_values
             (record_all Scenario.one_trade "ETH"
                [(5%Z, 20); (9%Z, 30)]) !! "ETH"%string = Some total ∧
           total == 10 + (20 + (30 + 0)).
Proof.
  destruct (record_all_state Scenario.one_trade "ETH"
              [(5%Z, 20); (9%Z, 30)]) as (_ & _ & Htotal & _);
    [discriminate|].
  exact Htotal.
Defined.

(** X19.  Resetting a coin that is not tracked changes nothing, and a
    second reset changes nothing more.  After a reset the coin's requests
    are judged with its cooldown and hourly count as before but with an
    exposure that restarts at zero; the other coins are judged as
    before. *)
Theorem reset_position_restart cfg st coin now trade_value balance :
  (position_values st !! coin = None → reset_position st coin = st) ∧
  reset_position (reset_position st coin) coin = reset_position st coin ∧
  fst (should_allow_trade cfg (reset_position st coin) now coin
         trade_value balance)
  = fst (should_allow_trade cfg st now coin
           (trade_value - default 0 (position_values st !! coin)) balance) ∧
  (∀ c, c ≠ coin →
        fst (should_allow_trade cfg (reset_position st coin) now c
               trade_value balance)
        = fst (should_allow_trade cfg st now c trade_value balance)).
Proof.
  split_and!.
  - intros Hnone. apply state_eq; try done.
    cbn. by apply delete_id.
  - apply state_eq; try done. cbn. apply delete_delete_eq.
  - rewrite !should_allow_trade_fst. cbn [reset_position trade_history
      last_trade_time]. f_equal.
    unfold position_check, Py.gtb. cbn [reset_position position_values].
    rewrite lookup_delete_eq. cbn [default from_option id]. f_equal.
    apply ltb_comp; [reflexivity | ring].
  - intros c Hc. rewrite !should_allow_trade_fst.
    cbn [reset_position trade_history last_trade_time]. f_equal.
    unfold position_check. cbn [reset_position position_values].
    by rewrite lookup_delete_ne.
Qed.

Lemma reset_position_restart_witness :
  reset_position PositionLimiter.empty "ETH" = PositionLimiter.empty ∧
  fst (should_allow_trade Scenario.limits
         (reset_position Scenario.one_trade "ETH") Scenario.two_hours
         "BTC" 10 1000)
  = fst (should_allow_trade Scenario.limits Scenario.one_trade
           Scenario.two_hours "BTC" 10 1000).
Proof.
  destruct (reset_position_restart Scenario.limits PositionLimiter.empty
              "ETH" 0 0 0) as (Hnone & _).
  destruct (reset_position_restart Scenario.limits Scenario.one_trade
              "ETH" Scenario.two_hours 10 1000) as (_ & _ & _ & Hother).
  split; [by apply Hnone | by apply Hother].
Defined.

(** X20.  In the statistics a coin is listed as blocked exactly when it
    has a history whose trades of the last hour reach the hourly maximum,
    its count of recent trades is the number of those trades, and a
    request for a blocked coin at that time is refused whatever its
    value. *)
Theorem get_stats_blocked cfg st now coin :
  (coin ∈ blocked_coins (get_stats cfg st now) ↔
   ∃ trades, trade_history st !! coin = Some trades ∧
             (max_trades_per_coin_per_hour cfg
              <= Z.of_nat (length (recent_trades now trades)))%Z) ∧
  stats_recent_trades (get_stats cfg st now) !! coin
  = (λ trades, length (recent_trades now trades))
      <$> trade_history st !! coin ∧
  (coin ∈ blocked_coins (get_stats cfg st now) →
   ∀ trade_value balance,
     fst (should_allow_trade cfg st now coin trade_value balance) = false).
Proof.
  assert (Hblocked :
    coin ∈ blocked_coins (get_stats cfg st now) ↔
    ∃ trades, trade_history st !! coin = Some trades ∧
              (max_trades_per_coin_per_hour cfg
               <= Z.of_nat (length (recent_trades now trades)))%Z).
  { unfold get_stats. cbn [blocked_coins].
    rewrite list_elem_of_In, in_map_iff. split.
    - intros ([c n] & Hc & Hin). cbn in Hc. subst c.
      apply filter_In in Hin as [Hin Hmax]. cbn in Hmax.
      apply list_elem_of_In, elem_of_map_to_list in Hin.
      rewrite lookup_fmap in Hin.
      destruct (trade_history st !! coin) as [trades|]; [|done].
      cbn in Hin. injection Hin as <-.
      exists trades. split; [done|]. by apply Z.leb_le.
    - intros (trades & Hhist & Hmax).
      exists (coin, length (recent_trades now trades)).
      split; [done|]. apply filter_In. split.
      + apply list_elem_of_In, elem_of_map_to_list.
        rewrite lookup_fmap, Hhist. done.
      + cbn. by apply Z.leb_le. }
  split_and!; [done | apply lookup_fmap |].
  intros Hin trade_value balance.
  apply Hblocked in Hin as (trades & Hhist & Hmax).
  rewrite should_allow_trade_fst, Hhist.
  apply Z.leb_le in Hmax. rewrite Hmax. cbn. by rewrite andb_false_r.
Qed.

Lemma get_stats_blocked_witness :
  fst (should_allow_trade Scenario.limits
         (record_all PositionLimiter.empty "ETH"
            [(0%Z, 10); (60000000%Z, 10); (120000000%Z, 10)])
         180000000 "ETH" 1 1000) = false.
Proof.
  destruct (get_stats_blocked Scenario.limits
              (record_all PositionLimiter.empty "ETH"
                 [(0%Z, 10); (60000000%Z, 10); (120000000%Z, 10)])
              180000000 "ETH") as (Hiff & _ & Hrefused).
  apply Hrefused. apply Hiff. eexists. split; [reflexivity|].
  vm_compute. discriminate.
Defined.

End LimiterBehaviour.

(** ** Rebalancing: the remaining branches *)

Section RebalanceBehaviour.

Import PortfolioExecutor.
Local Open Scope Q_scope.

(** X21.  From no position, a change that the rebalance computes to be
    worth at least the minimum order value is opened with one order: its
    quantity is |sizeDiff|, it is on the target's side, and filling it
    brings the position to the target size. *)
Theorem rebalance_open_from_flat env coin target_value price is_long ts :
  let current_size := fst (get_current_position env coin) in
  let o := {| name := coin; is_buy := is_long;
              sz := Qabs (ts - current_size); slippage := 0.02 |} in
  target_size target_value price is_long = Some ts →
  current_size == 0 →
  min_order_value <= Qabs ((ts - current_size) * price) →
  snd (rebalance_position env coin target_value price is_long) = [o] ∧
  after_fill current_size o == ts.
Proof.
  cbn zeta. intros Hts Hflat Hdiff. split.
  - unfold rebalance_position. rewrite Hts.
    apply neqb_false in Hflat as Hnone. rewrite Hnone, andb_false_r.
    apply ltb_false in Hdiff. rewrite Hdiff.
    apply Qeq_bool_iff in Hflat. by rewrite Hflat.
  - assert (Hside : (is_long = true → 0 <= ts) ∧ (is_long = false → ts <= 0)).
    { unfold target_size in Hts.
      destruct (if Py.gtb target_value 0
                then Py.fdiv target_value price else Some 0) as [t0|];
        [|done].
      cbn in Hts. injection Hts as <-. pose proof (Qabs_nonneg t0).
      destruct is_long; split; intros; try done; lra. }
    destruct Hside as [Hlong Hshort].
    apply fill_open; try done.
    rewrite Hflat. assert (E : ts - 0 == ts) by ring. by rewrite E.
Qed.

Lemma rebalance_open_from_flat_witness :
  ∃ o, snd (rebalance_position (Scenario.exchange 5 1000 2 [])
              "ETH" 500 5 false) = [o] ∧
       is_buy o = false ∧ after_fill 0 o == - (500 / 5).
Proof.
  destruct (rebalance_open_from_flat (Scenario.exchange 5 1000 2 [])
              "ETH" 500 5 false (- Qabs (500 / 5))) as [Ho Hfill];
    [reflexivity | reflexivity | vm_compute; discriminate|].
  eexists. split; [exact Ho|]. split; [reflexivity | exact Hfill].
Defined.

(** X22.  A moderate change (a target of at least the minimum in
    magnitude, a change worth at least the minimum, and |sizeDiff| below
    0.9 |currentSize|) is one order of |sizeDiff|, a buy exactly when the
    target is above the position, and filling it brings the position to
    the target size. *)
Theorem rebalance_adjust env coin target_value price is_long ts :
  let current_size := fst (get_current_position env coin) in
  let o := {| name := coin; is_buy := Py.gtb (ts - current_size) 0;
              sz := Qabs (ts - current_size); slippage := 0.02 |} in
  target_size target_value price is_long = Some ts →
  min_order_value <= Qabs target_value →
  min_order_value <= Qabs ((ts - current_size) * price) →
  ¬ current_size == 0 →
  Qabs (ts - current_size) < Qabs current_size * 0.9 →
  snd (rebalance_position env coin target_value price is_long) = [o] ∧
  after_fill current_size o == ts.
Proof.
  cbn zeta. intros Hts Htv Hdiff Hcur Hsmall.
  split; [|apply fill_adjust].
  unfold rebalance_position. rewrite Hts.
  apply ltb_false in Htv. rewrite Htv. cbn [andb].
  apply ltb_false in Hdiff. rewrite Hdiff.
  apply neqb_true in Hcur. unfold Py.neqb in Hcur.
  apply negb_true_iff in Hcur. rewrite Hcur.
  apply geb_false in Hsmall. rewrite Hsmall. reflexivity.
Qed.

Lemma rebalance_adjust_witness :
  ∃ o, snd (rebalance_position
              (Scenario.exchange 5 1000 2 [Scenario.eth 100])
              "ETH" 600 5 true) = [o] ∧
       is_buy o = true ∧ after_fill 100 o == 600 / 5.
Proof.
  destruct (rebalance_adjust
              (Scenario.exchange 5 1000 2 [Scenario.eth 100])
              "ETH" 600 5 true (Qabs (600 / 5))) as [Ho Hfill];
    try reflexivity; try (vm_compute; discriminate).
  eexists. split; [exact Ho|]. split; [reflexivity | exact Hfill].
Defined.

(** Follow the branch taken, with the tests read as propositions. *)
Ltac follow :=
  repeat match goal with
  | |- context [snd (if ?b then _ else _)] => destruct b eqn:?
  end;
  repeat match goal with
  | H : _ && _ = true |- _ => apply andb_true_iff in H as [? ?]
  | H : _ && _ = false |- _ => apply andb_false_iff in H as [H | H]
  | H : Py.geb _ _ = true |- _ => apply geb_true in H
  | H : Py.geb _ _ = false |- _ => apply geb_false in H
  | H : Py.ltb _ _ = true |- _ => apply ltb_true in H
  | H : Py.ltb _ _ = false |- _ => apply ltb_false in H
  | H : Py.neqb _ _ = true |- _ => apply neqb_true in H
  | H : Py.neqb _ _ = false |- _ => apply neqb_false in H
  | H : Qeq_bool _ _ = true |- _ => apply Qeq_bool_iff in H
  | H : Qeq_bool _ _ = false |- _ => apply Qeq_bool_neq in H
  end;
  cbn [snd fst execute].

(** X23.  A target value that is not positive never opens or adjusts a
    position, at any price: an order the rebalance submits for it is the
    only one, it is the full close of the current position, and filling it
    leaves no position. *)
Theorem rebalance_nonpositive_target env coin target_value price is_long o :
  target_value <= 0 →
  o ∈ snd (rebalance_position env coin target_value price is_long) →
  snd (rebalance_position env coin target_value price is_long) = [o] ∧
  o = {| name := coin;
         is_buy := Py.ltb (fst (get_current_position env coin)) 0;
         sz := Qabs (fst (get_current_position env coin));
         slippage := 0.02 |} ∧
  after_fill (fst (get_current_position env coin)) o == 0.
Proof.
  intros Htv. unfold rebalance_position, target_size.
  apply gtb_false in Htv. rewrite Htv. cbn [mbind option_bind].
  set (c := fst (get_current_position env coin)). clearbody c.
  assert (Hts : (if is_long then Qabs 0 else - Qabs 0) == 0)
    by (by destruct is_long).
  set (ts := if is_long then Qabs 0 else - Qabs 0) in *. clearbody ts.
  follow.
  all: try (intros Ho; by apply elem_of_nil in Ho).
  all: try (apply gtb_false in Htv; unfold min_order_value in *; lra).
  all: try (intros Ho; apply list_elem_of_singleton in Ho as ->;
            split_and!; [done | done | apply fill_close]).
  all: exfalso.
  all: try match goal with
       | Hz : ?t == 0, Hc : ?x == 0,
         H : min_order_value <= Qabs ((?t - ?x) * ?p) |- _ =>
           assert (E : (t - x) * p == 0) by (rewrite Hz, Hc; ring);
           rewrite E in H; by vm_compute in H
       end.
  all: try match goal with
       | Hz : ?t == 0, H : Qabs (?t - ?x) < Qabs ?x * 0.9 |- _ =>
           assert (E : t - x == - x) by (rewrite Hz; ring);
           rewrite E, Qabs_opp in H;
           pose proof (Qabs_nonneg x); lra
       end.
Qed.

Lemma rebalance_nonpositive_target_witness :
  snd (rebalance_position (Scenario.exchange 5 1000 2 [Scenario.eth 100])
         "ETH" (-500) 5 true)
  = [{| name := "ETH"; is_buy := false; sz := Qabs 100;
        slippage := 0.02 |}].
Proof.
  by destruct (rebalance_nonpositive_target
                 (Scenario.exchange 5 1000 2 [Scenario.eth 100])
                 "ETH" (-500) 5 true
                 {| name := "ETH"; is_buy := false; sz := Qabs 100;
                    slippage := 0.02 |}) as (-> & _);
    [vm_compute; discriminate | vm_compute; by left |].
Defined.

(** X24.  A rebalance submits at most two orders, all for the coin asked
    about and with a slippage of 2%; when there are two, the target value
    is at least the minimum order value, the first is the full close of
    the current position and the second is on the target's side. *)
Theorem rebalance_orders_shape env coin target_value price is_long :
  (length (snd (rebalance_position env coin target_value price is_long))
   <= 2)%nat ∧
  (∀ o, o ∈ snd (rebalance_position env coin target_value price is_long) →
        name o = coin ∧ slippage o = 0.02) ∧
  (∀ o1 o2,
     snd (rebalance_position env coin target_value price is_long)
     = [o1; o2] →
     min_order_value <= target_value ∧
     o1 = {| name := coin;
             is_buy := Py.ltb (fst (get_current_position env coin)) 0;
             sz := Qabs (fst (get_current_position env coin));
             slippage := 0.02 |} ∧
     is_buy o2 = is_long).
Proof.
  unfold rebalance_position.
  destruct (target_size target_value price is_long) as [ts|].
  2: { cbn. split_and!; [lia | | done].
       intros o Ho. by apply elem_of_nil in Ho. }
  follow.
  all: split_and!; [cbn; lia | | ].
  all: try (intros o Ho;
            repeat (apply elem_of_cons in Ho as [-> | Ho]; [done|]);
            by apply elem_of_nil in Ho).
  all: try done.
  all: intros o1 o2 [= <- <-]; done.
Qed.

Lemma rebalance_orders_shape_witness :
  ∃ o1 o2,
    snd (rebalance_position (Scenario.exchange 5 1000 2 [Scenario.eth 100])
           "ETH" 500 5 false) = [o1; o2] ∧
    is_buy o1 = false ∧ is_buy o2 = false.
Proof.
  destruct (rebalance_orders_shape
              (Scenario.exchange 5 1000 2 [Scenario.eth 100])
              "ETH" 500 5 false) as (_ & _ & Htwo).
  do 2 eexists. split; [vm_compute; reflexivity|].
  edestruct Htwo as (_ & -> & _); [vm_compute; reflexivity|].
  by split.
Defined.

Lemma execute_not_skipped env coin target_value action buy size :
  skipped (fst (execute env coin target_value action buy size)) = false.
Proof. unfold execute. cbn. by destruct (market_open env _). Qed.

Lemma rebalance_skipped env coin target_value price is_long :
  skipped (fst (rebalance_position env coin target_value price is_long))
  = true →
  snd (rebalance_position env coin target_value price is_long) = [].
Proof.
  unfold rebalance_position.
  destruct (target_size target_value price is_long) as [ts|]; [|done].
  repeat match goal with
  | |- context [if ?b then _ else _] =>
      lazymatch b with
      | String.eqb _ _ => fail
      | _ => destruct b
      end
  end;
  try done;
  match goal with
  | |- context [execute ?e ?c ?t ?a ?b ?s] =>
      pose proof (execute_not_skipped e c t a b s) as Hn;
      destruct (execute e c t a b s); cbn in *; congruence
  end.
Qed.

(** X25.  The command line of the portfolio executor: a direction other
    than LONG or SHORT is refused before anything runs; a positive target
    at a price of zero ends with the exception, exit code 1 and no order;
    a skipped rebalance exits with 0 and has submitted nothing. *)
Theorem portfolio_main_exit env coin target_value price direction :
  (direction ≠ "LONG"%string → direction ≠ "SHORT"%string →
   PortfolioMain.main env coin target_value price direction
   = (None, 2%Z, [])) ∧
  (direction = "LONG"%string ∨ direction = "SHORT"%string →
   0 < target_value → price == 0 →
   PortfolioMain.main env coin target_value price direction
   = (Some Raised, 1%Z, [])) ∧
  (∀ r, fst (fst (PortfolioMain.main env coin target_value price direction))
        = Some r →
        skipped r = true →
        snd (fst (PortfolioMain.main env coin target_value price direction))
        = 0%Z ∧
        snd (PortfolioMain.main env coin target_value price direction) = []).
Proof.
  unfold PortfolioMain.main. split_and!.
  - intros H1 H2. cbn [existsb].
    by rewrite (eqb_neq_false _ _ H1), (eqb_neq_false _ _ H2).
  - intros Hdir Hpos Hzero.
    assert (Hraised : ∀ long,
      rebalance_position env coin target_value price long = (Raised, [])).
    { intros long. unfold rebalance_position, target_size, Py.fdiv.
      apply gtb_true in Hpos. apply Qeq_bool_iff in Hzero.
      by rewrite Hpos, Hzero. }
    destruct Hdir as [-> | ->]; cbn [existsb String.eqb Ascii.eqb Bool.eqb
      negb orb]; by rewrite Hraised.
  - intros r.
    destruct (negb (existsb (String.eqb direction) ["LONG"; "SHORT"]%string));
      [done|].
    pose proof (rebalance_skipped env coin target_value price
                  (String.eqb direction "LONG")) as Hskip.
    destruct (rebalance_position env coin target_value price
                (String.eqb direction "LONG")) as [r' orders].
    cbn in *. intros [= ->] Hr. rewrite Hr. rewrite andb_false_r.
    split; [done | by apply Hskip].
Qed.

Lemma portfolio_main_exit_witness :
  PortfolioMain.main (Scenario.exchange 0 1000 2 []) "ETH" 500 0 "LONG"
  = (Some Raised, 1%Z, []).
Proof.
  apply (portfolio_main_exit (Scenario.exchange 0 1000 2 []) "ETH" 500 0
           "LONG"); [by left | reflexivity | reflexivity].
Defined.

End RebalanceBehaviour.

(** ** The liquidation risk analysis *)

Section LiquidationFacts.

Import LiquidationRisk.
Local Open Scope Q_scope.

(** A quotient of 95 by a share of at most one is at least 95. *)
Lemma share_bound x y : 0 < y → y <= 1 → x * y == 95 → 95 <= x.
Proof.
  intros Hy Hone Hxy.
  destruct (Qlt_le_dec x 95) as [Hlt|]; [|done].
  assert (Hx : 0 < x).
  { destruct (Qlt_le_dec 0 x) as [|Hneg]; [done|].
    assert (Hnn : 0 <= (- x) * y) by (apply Qmult_le_0_compat; lra).
    assert (E : (- x) * y == - (x * y)) by ring.
    rewrite E in Hnn. lra. }
  assert (Hprod : x * y <= x * 1).
  { rewrite !(Qmult_comm x). by apply Qmult_le_compat_r; [|lra]. }
  lra.
Qed.

(** X26.  For a positive balance, a positive SOL price and a wallet
    percentage in (0, 1], the scenario analysis always ends with a price
    drop needed of 95 and the risk level LOW, whatever the percentage; the
    total exposure it assumes never exceeds the balance. *)
Theorem analysis_always_low balance sol_price pct :
  0 < sol_price → 0 < balance → 0 < pct → pct <= 1 →
  ∃ a, analyze balance sol_price pct = Some a ∧
       price_drop_needed a == 95 ∧ risk_level a = LOW ∧
       total_exposure a <= balance ∧ 0 <= remaining_balance a.
Proof.
  intros Hsol Hb Hpct Hone. unfold analyze.
  rewrite (fdiv_pos _ sol_price) by done. cbn [mbind option_bind].
  assert (Hvalue : 0 < balance * pct) by (by apply Qmult_lt_0_compat).
  assert (Htail : ∀ k, 0 < k → k * pct <= 1 →
    ∃ loss drop,
      (if Py.gtb k 0 then Py.fdiv (balance - balance * 0.05) k else Some 0)
      = Some loss ∧
      (if Py.gtb (balance * pct) 0
       then ratio ← Py.fdiv loss (balance * pct);
            Some (Py.min (ratio * 100) 95)
       else Some 0) = Some drop ∧
      drop == 95 ∧ Py.gtb drop 80 = true ∧
      balance * pct * k <= balance).
  { intros k Hk Hshare.
    set (pc := (balance - balance * 0.05) / k / (balance * pct) * 100).
    assert (Hpc : pc * (k * pct) == 95) by (unfold pc; field; lra).
    assert (Hshare' : 0 < k * pct) by (by apply Qmult_lt_0_compat).
    pose proof (share_bound pc (k * pct) Hshare' Hshare Hpc) as Hbound.
    assert (Hmin : Py.min pc 95 == 95).
    { unfold Py.min. destruct (Py.ltb 95 pc) eqn:E; [reflexivity|].
      apply ltb_false in E. lra. }
    exists ((balance - balance * 0.05) / k), (Py.min pc 95).
    apply gtb_true in Hk as Hk'. rewrite Hk'.
    rewrite (fdiv_pos _ k) by done.
    apply gtb_true in Hvalue as Hvalue'. rewrite Hvalue'.
    rewrite (fdiv_pos _ (balance * pct)) by done. cbn [mbind option_bind].
    split_and!; try reflexivity; try done.
    - apply gtb_true. rewrite Hmin. reflexivity.
    - assert (E : balance * pct * k == (k * pct) * balance) by ring.
      rewrite E. rewrite <- (Qmult_1_l balance) at 2.
      apply Qmult_le_compat_r; lra. }
  assert (Hk : ∃ k, (if Py.geb 0.3 pct then 3
                     else if Py.geb 0.5 pct then 2 else 1) = k ∧
                    0 < k ∧ k * pct <= 1).
  { destruct (Py.geb 0.3 pct) eqn:H3; [apply geb_true in H3|];
      [eexists; split_and!; [reflexivity | reflexivity | lra]|].
    destruct (Py.geb 0.5 pct) eqn:H5; [apply geb_true in H5|];
      eexists; split_and!; try reflexivity; lra. }
  destruct Hk as (k & -> & Hk & Hshare).
  destruct (Htail k Hk Hshare) as (loss & drop & -> & Hdrop & H95 & Hlow & Hexp).
  cbn [mbind option_bind]. rewrite Hdrop. cbn [mbind option_bind].
  eexists. split; [reflexivity|].
  cbn [price_drop_needed risk_level total_exposure remaining_balance].
  rewrite Hlow. split_and!; [done | done | done | lra].
Qed.

Lemma analysis_always_low_witness :
  ∃ a, analyze 100 210 0.7 = Some a ∧ risk_level a = LOW.
Proof.
  destruct (analysis_always_low 100 210 0.7)
    as (a & Ha & _ & Hlow & _); try reflexivity;
    try (vm_compute; discriminate).
  by exists a.
Defined.

End LiquidationFacts.
